(** * pdf-toolbox: a shallow embedding of [utils/pdf_analysis.py],
    [utils/pdf_processing.py], [utils/pdf_export.py] and of tools of
    [main.py]

    The repository is glue code around third-party libraries (LangChain,
    FAISS, PyMuPDF, PyPDF2, Camelot, pdfplumber, Tesseract).  The functions
    of the repository are embedded as programs in a small
    state-and-exception monad that records every call into a library; what
    a library answers is a parameter of the development, so every theorem
    holds for all answers the libraries may give.  Texts are strings of
    code points below 256. *)

From Stdlib Require Import ZArith QArith String Ascii List Lia Bool.
From Stdlib Require Import DecimalString DecimalZ DecimalN DecimalPos DecimalFacts.
From stdpp Require Import base option list strings gmap.
Import ListNotations.

Local Open Scope Z_scope.
Local Open Scope string_scope.

(** ** Python runtime *)

Module Py.

(** Exceptions.  [except Exception] catches instances of classes deriving
    from [Exception]; [KeyboardInterrupt], [SystemExit] and the like derive
    from [BaseException] only. *)
Inductive exn : Type :=
| Exception (cls msg : string)
| BaseException (cls msg : string).

Inductive result (A : Type) : Type :=
| Ok (a : A)
| Raise (e : exn).
Arguments Ok {A} a.
Arguments Raise {A} e.

Definition failure {A} (r : result A) : option exn :=
  match r with Ok _ => None | Raise e => Some e end.

(** The state threaded through a run: the next fresh object identity and
    the calls made into libraries so far, oldest first, each with the
    exception it raised, if any. *)
Record world (E : Type) : Type :=
  World { next_id : nat; trace : list (E * option exn) }.
Arguments World {E} next_id trace.
Arguments next_id {E} w.
Arguments trace {E} w.

Definition M (E A : Type) : Type := world E -> result A * world E.

Definition ret {E A} (a : A) : M E A := fun w => (Ok a, w).

Definition bind {E A B} (c : M E A) (k : A -> M E B) : M E B :=
  fun w =>
    match c w with
    | (Ok a, w') => k a w'
    | (Raise e, w') => (Raise e, w')
    end.

Definition raise {E A} (e : exn) : M E A := fun w => (Raise e, w).

Definition lift {E A} (r : result A) : M E A := fun w => (r, w).

Definition after {E} (w : world E) (evs : list (E * option exn)) : world E :=
  World (next_id w) (trace w ++ evs).

Definition emit {E} (e : E) (x : option exn) : M E unit :=
  fun w => (Ok tt, after w [(e, x)]).

(** [id(obj)] of a newly created object. *)
Definition fresh {E} : M E nat :=
  fun w => (Ok (next_id w), World (S (next_id w)) (trace w)).

(** A call into a library: recorded, then answered. *)
Definition call {E A} (e : E) (r : result A) : M E A :=
  bind (emit e (failure r)) (fun _ => lift r).

(** A call that returned, and a call that raised. *)
Definition ok {E} (e : E) : E * option exn := (e, None).
Definition failed {E} (e : E) (x : exn) : E * option exn := (e, Some x).

(** [try: body  except Exception: handler] *)
Definition try_except_Exception {E A} (body : M E A) (handler : M E A) : M E A :=
  fun w =>
    match body w with
    | (Raise (Exception _ _), w') => handler w'
    | r => r
    end.

(** A keyword argument with a default value. *)
Definition default {A} (d : A) (arg : option A) : A :=
  match arg with Some a => a | None => d end.

(** *** [str]

    A [str] is a Rocq [string]; its characters are the code points below
    256.  [str.isspace] on that range: TAB..CR, FS..US, SPACE, NEL, NBSP. *)
Definition isspace (c : ascii) : bool :=
  let n := N_of_ascii c in
  ((9 <=? n) && (n <=? 13) || (28 <=? n) && (n <=? 32)
   || (n =? 133) || (n =? 160))%N.

Fixpoint lstrip (s : string) : string :=
  match s with
  | String c s' => if isspace c then lstrip s' else s
  | EmptyString => EmptyString
  end.

Fixpoint rstrip (s : string) : string :=
  match s with
  | String c s' =>
      match rstrip s' with
      | EmptyString => if isspace c then EmptyString else String c EmptyString
      | t => String c t
      end
  | EmptyString => EmptyString
  end.

(** [s.strip()] *)
Definition strip (s : string) : string := rstrip (lstrip s).

Fixpoint all_space (s : string) : bool :=
  match s with
  | String c s' => isspace c && all_space s'
  | EmptyString => true
  end.

Definition starts_with_space (s : string) : bool :=
  match s with String c _ => isspace c | EmptyString => false end.

Fixpoint ends_with_space (s : string) : bool :=
  match s with
  | String c EmptyString => isspace c
  | String _ s' => ends_with_space s'
  | EmptyString => false
  end.

End Py.
Import Py.

Declare Scope py_scope.
Delimit Scope py_scope with py.
Notation "x <- c ;; k" := (bind c (fun x => k))
  (at level 100, c at next level, right associativity) : py_scope.
Notation "c ;;; k" := (bind c (fun _ => k))
  (at level 100, right associativity) : py_scope.
Local Open Scope py_scope.

(** ** utils/pdf_analysis.py *)

Module Analysis.

(** Objects of the libraries, described by what they were built from. *)
Record splitter : Type :=
  { chunk_size : Z; chunk_overlap : Z }.

(** [instance] is the identity of the Python object holding the loaded
    model. *)
Record embeddings : Type :=
  { model_name : string; instance : nat }.

Record document : Type :=
  { page_content : string }.

Record chat_model : Type :=
  { model : string;
    temperature : Q;
    max_tokens : Z;
    openai_api_key : option string;
    openai_api_base : string }.

Record message : Type :=
  { content : string }.

(** Values held in the dictionaries passed to and returned by a chain. *)
Inductive pyval : Type :=
| VStr (s : string)
| VList (docs : list document).

(** Calls into the libraries, as recorded in the trace. *)
Inductive event : Type :=
| SplitterInit (s : splitter)
| SplitText (s : splitter) (text : string)
| EmbeddingsInit (e : embeddings)
| EmbedDocuments (e : embeddings) (texts : list string)
| IndexBuild (texts : list string)
| AsRetriever (k : Z)
| Getenv (name : string)
| ChatInit (c : chat_model)
| ChainInit (chain_type : string) (return_source_documents : bool)
| EmbedQuery (e : embeddings) (query : string)
| IndexSearch (k : Z)
| Completion (c : chat_model) (prompt : string).

(** What the libraries and the process environment answer.  [vector] is an
    embedding vector and [index] a built FAISS index; [completion] is the
    request sent to the hosted model. *)
Record library : Type :=
  { vector : Type;
    index : Type;
    environ : string -> option string;
    splitter_init : splitter -> result unit;
    split_text : splitter -> string -> result (list string);
    embeddings_init : embeddings -> result unit;
    embed_documents : embeddings -> list string -> result (list vector);
    index_build : list string -> list vector -> result index;
    as_retriever_init : Z -> result unit;
    chat_init : chat_model -> result unit;
    chain_init : string -> bool -> result unit;
    embed_query : embeddings -> string -> result vector;
    index_search : index -> vector -> Z -> result (list document);
    stuff_prompt : list document -> string -> string;
    completion : chat_model -> string -> result message }.

Section Functions.

Variable L : library.

Record vector_store : Type :=
  { vs_index : index L; vs_embeddings : embeddings; vs_texts : list string }.

Record retriever : Type :=
  { vectorstore : vector_store; search_k : Z }.

Record retrieval_qa : Type :=
  { qa_llm : chat_model;
    qa_retriever : retriever;
    qa_return_source_documents : bool;
    qa_chain_type : string }.

Local Abbreviation Run A := (M event A).

(** *** The calls into LangChain

    Constructors record the call and may raise.  [FAISS.from_texts] embeds
    the texts with the embeddings object it is given and builds the index;
    a [RetrievalQA] chain of type "stuff", when called, embeds the query
    with the embeddings object of its retriever's store, searches the index
    for [k] documents, stuffs them and the question into one prompt and
    sends it to the chat model. *)

Definition RecursiveCharacterTextSplitter (chunk_size chunk_overlap : Z)
  : Run splitter :=
  let s := {| chunk_size := chunk_size; chunk_overlap := chunk_overlap |} in
  call (SplitterInit s) (splitter_init L s) ;;; ret s.

Definition splitter_split_text (s : splitter) (text : string) : Run (list string) :=
  call (SplitText s text) (split_text L s text).

Definition HuggingFaceEmbeddings (model_name : string) : Run embeddings :=
  i <- fresh ;;
  let e := {| model_name := model_name; instance := i |} in
  call (EmbeddingsInit e) (embeddings_init L e) ;;; ret e.

Definition FAISS_from_texts (texts : list string) (e : embeddings)
  : Run vector_store :=
  vs <- call (EmbedDocuments e texts) (embed_documents L e texts) ;;
  ix <- call (IndexBuild texts) (index_build L texts vs) ;;
  ret {| vs_index := ix; vs_embeddings := e; vs_texts := texts |}.

Definition as_retriever (vs : vector_store) (k : Z) : Run retriever :=
  call (AsRetriever k) (as_retriever_init L k) ;;;
  ret {| vectorstore := vs; search_k := k |}.

Definition os_getenv (name : string) : Run (option string) :=
  call (Getenv name) (Ok (environ L name)).

Definition ChatOpenAI (c : chat_model) : Run chat_model :=
  call (ChatInit c) (chat_init L c) ;;; ret c.

Definition llm_invoke (llm : chat_model) (prompt : string) : Run message :=
  call (Completion llm prompt) (completion L llm prompt).

Definition RetrievalQA_from_chain_type (llm : chat_model) (r : retriever)
    (return_source_documents : bool) (chain_type : string) : Run retrieval_qa :=
  call (ChainInit chain_type return_source_documents)
       (chain_init L chain_type return_source_documents) ;;;
  ret {| qa_llm := llm; qa_retriever := r;
         qa_return_source_documents := return_source_documents;
         qa_chain_type := chain_type |}.

(** [d[key]] *)
Definition getitem (d : gmap string pyval) (key : string) : Run pyval :=
  match d !! key with
  | Some v => ret v
  | None => raise (Exception "KeyError" key)
  end.

(** [d.get(key, dflt)] *)
Definition dict_get (d : gmap string pyval) (key : string) (dflt : pyval) : pyval :=
  match d !! key with Some v => v | None => dflt end.

Definition get_relevant_documents (r : retriever) (query : string)
  : Run (list document) :=
  let vs := vectorstore r in
  qv <- call (EmbedQuery (vs_embeddings vs) query)
             (embed_query L (vs_embeddings vs) query) ;;
  call (IndexSearch (search_k r)) (index_search L (vs_index vs) qv (search_k r)).

Definition RetrievalQA_call (qa : retrieval_qa) (inputs : gmap string pyval)
  : Run (gmap string pyval) :=
  q <- getitem inputs "query" ;;
  match q with
  | VStr question =>
      docs <- get_relevant_documents (qa_retriever qa) question ;;
      out <- llm_invoke (qa_llm qa) (stuff_prompt L docs question) ;;
      let answer := <["result" := VStr (content out)]> inputs in
      ret (if qa_return_source_documents qa
           then <["source_documents" := VList docs]> answer
           else answer)
  | VList _ => raise (Exception "TypeError" "query")
  end.

(** *** The functions of the repository *)

Definition build_retriever_from_text (text : string)
    (chunk_size overlap k : option Z) : Run retriever :=
  let chunk_size := default 800 chunk_size in
  let overlap := default 100 overlap in
  let k := default 3 k in
  splitter <- RecursiveCharacterTextSplitter chunk_size overlap ;;
  chunks <- splitter_split_text splitter text ;;
  embeddings <- HuggingFaceEmbeddings "sentence-transformers/all-MiniLM-L6-v2" ;;
  vs <- FAISS_from_texts chunks embeddings ;;
  as_retriever vs k.

Definition together_llm (model : option string) (temperature : option Q)
    (max_tokens : option Z) : Run chat_model :=
  let model := default "meta-llama/Llama-Vision-Free" model in
  let temperature := default (2 # 10)%Q temperature in
  let max_tokens := default 512 max_tokens in
  key <- os_getenv "TOGETHER_API_KEY" ;;
  ChatOpenAI {| model := model;
                temperature := temperature;
                max_tokens := max_tokens;
                openai_api_key := key;
                openai_api_base := "https://api.together.xyz/v1" |}.

Definition rag_qa (text question : string) (model : option string)
  : Run (pyval * pyval) :=
  let model := default "meta-llama/Llama-Vision-Free" model in
  retriever <- build_retriever_from_text text None None None ;;
  llm <- together_llm (Some model) None None ;;
  qa <- RetrievalQA_from_chain_type llm retriever true "stuff" ;;
  result <- RetrievalQA_call qa {["query" := VStr question]} ;;
  answer <- getitem result "result" ;;
  ret (answer, dict_get result "source_documents" (VList [])).

Definition instruction : string :=
  "You are a concise technical summarizer. Summarize the following document in 6-10 bullet points, "
  +:+ "preserving key facts, numbers, and definitions. Text:" +:+ "

".

Definition summarize_text (text : string) (model : option string) : Run string :=
  let model := default "meta-llama/Llama-Vision-Free" model in
  let prompt := instruction +:+ text in
  llm <- together_llm (Some model) (Some (2 # 10)%Q) (Some 400) ;;
  output <- llm_invoke llm prompt ;;
  ret (strip (content output)).

End Functions.

End Analysis.

(** ** utils/pdf_processing.py *)

Module Processing.

(** What Camelot, pdfplumber and PyMuPDF answer.  A PyMuPDF document is
    the list of its pages.  [insert_pdf_outside] is what PyMuPDF does with a
    page range that is not within the source document. *)
Record library : Type :=
  { dataframe : Type;
    rows : Type;
    plumber_page : Type;
    page : Type;
    camelot_read_pdf : string -> string -> result (list dataframe);
    pdfplumber_open : string -> result (list plumber_page);
    page_extract_tables : plumber_page -> result (option (list rows));
    fitz_open : string -> result (list page);
    insert_pdf_outside : list page -> list page -> Z -> Z -> result (list page);
    fitz_save : list page -> string -> result unit }.

Section Functions.

Variable L : library.

(** An element of the list [extract_tables] returns: a DataFrame (Camelot)
    or a list-of-rows table (pdfplumber). *)
Inductive table : Type :=
| DataFrame (df : dataframe L)
| RowsTable (r : rows L).

Inductive event : Type :=
| CamelotReadPdf (path pages : string)
| PdfplumberOpen (path : string)
| ExtractTables (p : plumber_page L)
| FitzOpen (path : string)
| FitzNew
| InsertPdf (src : list (page L)) (from_page to_page : Z)
| Save (doc : list (page L)) (path : string).

Local Abbreviation Run A := (M event A).

(** [for x in xs: body], threading the variables the body updates. *)
Fixpoint for_each {A S : Type} (xs : list A) (body : A -> S -> Run S) (s : S)
  : Run S :=
  match xs with
  | [] => ret s
  | x :: xs' => s' <- body x s ;; for_each xs' body s'
  end.

(** [x or []] *)
Definition or_empty {A} (x : option (list A)) : list A :=
  match x with Some l => l | None => [] end.

(** [TableList.n] *)
Definition n (tables : list (dataframe L)) : Z := Z.of_nat (length tables).

Definition extract_tables (pdf_path : string) : Run (list table) :=
  returned <-
    try_except_Exception
      (tables <- call (CamelotReadPdf pdf_path "all")
                      (camelot_read_pdf L pdf_path "all") ;;
       if (0 <? n tables)%Z
       then ret (Some (map DataFrame tables))
       else ret None)
      (ret None) ;;
  match returned with
  | Some dfs => ret dfs
  | None =>
      pdf <- call (PdfplumberOpen pdf_path) (pdfplumber_open L pdf_path) ;;
      for_each pdf
        (fun page results =>
           page_tables <- call (ExtractTables page) (page_extract_tables L page) ;;
           ret (results ++ map RowsTable (or_empty page_tables))%list)
        []
  end.

(** [dst.insert_pdf(src, from_page=a, to_page=b)]: the pages [a..b] of [src]
    are appended to [dst]. *)
Definition insert_pdf (dst src : list (page L)) (from_page to_page : Z)
  : Run (list (page L)) :=
  call (InsertPdf src from_page to_page)
    (if ((0 <=? from_page) && (from_page <=? to_page)
         && (to_page <? Z.of_nat (length src)))%Z
     then Ok (dst ++ firstn (Z.to_nat (to_page - from_page + 1))
                            (skipn (Z.to_nat from_page) src))%list
     else insert_pdf_outside L dst src from_page to_page).

Definition reorder_pages (pdf_path : string) (new_order : list Z)
    (output_path : option string) : Run string :=
  let output_path := default "reordered.pdf" output_path in
  src <- call (FitzOpen pdf_path) (fitz_open L pdf_path) ;;
  dst <- call FitzNew (Ok []) ;;
  dst <- for_each new_order (fun i dst => insert_pdf dst src i i) dst ;;
  call (Save dst output_path) (fitz_save L dst output_path) ;;;
  ret output_path.

End Functions.

Arguments DataFrame {L} df.
Arguments RowsTable {L} r.
Arguments CamelotReadPdf {L} path pages.
Arguments PdfplumberOpen {L} path.
Arguments ExtractTables {L} p.
Arguments FitzOpen {L} path.
Arguments FitzNew {L}.
Arguments InsertPdf {L} src from_page to_page.
Arguments Save {L} doc path.

End Processing.

(** ** Vocabulary of the statements *)

Module Spec.
Import Analysis.

(** [t] is [s] without its leading and trailing whitespace. *)
Definition trimmed (s t : string) : Prop :=
  exists l r, s = l +:+ t +:+ r
    /\ all_space l = true /\ all_space r = true
    /\ starts_with_space t = false /\ ends_with_space t = false.

(** The chat model [together_llm] configures for a model name, a
    temperature and a token limit. *)
Definition together (L : library) (name : string) (t : Q) (n : Z) : chat_model :=
  {| model := name;
     temperature := t;
     max_tokens := n;
     openai_api_key := environ L "TOGETHER_API_KEY";
     openai_api_base := "https://api.together.xyz/v1" |}.

Definition model_or_default (m : option string) : string :=
  default "meta-llama/Llama-Vision-Free" m.

(** The calls a run appended to the trace it started from. *)
Definition appended {E} (w w' : world E) (evs : list (E * option exn)) : Prop :=
  trace w' = (trace w ++ evs)%list.

(** Requests sent to the hosted model, in order. *)
Fixpoint completions (evs : list (event * option exn))
  : list (chat_model * string) :=
  match evs with
  | (Completion c p, _) :: evs' => (c, p) :: completions evs'
  | _ :: evs' => completions evs'
  | [] => []
  end.

(** Identities of the embedding models loaded, in order. *)
Fixpoint model_loads (evs : list (event * option exn)) : list nat :=
  match evs with
  | (EmbeddingsInit e, _) :: evs' => instance e :: model_loads evs'
  | _ :: evs' => model_loads evs'
  | [] => []
  end.

(** Identities of the embedding models used to embed texts or queries. *)
Fixpoint embedders (evs : list (event * option exn)) : list nat :=
  match evs with
  | (EmbedDocuments e _, _) :: evs' => instance e :: embedders evs'
  | (EmbedQuery e _, _) :: evs' => instance e :: embedders evs'
  | _ :: evs' => embedders evs'
  | [] => []
  end.

(** Chunk size and overlap of the splitters configured. *)
Fixpoint splitters (evs : list (event * option exn)) : list (Z * Z) :=
  match evs with
  | (SplitterInit s, _) :: evs' => (chunk_size s, chunk_overlap s) :: splitters evs'
  | _ :: evs' => splitters evs'
  | [] => []
  end.

(** The [k] of the index searches. *)
Fixpoint breadths (evs : list (event * option exn)) : list Z :=
  match evs with
  | (IndexSearch k, _) :: evs' => k :: breadths evs'
  | _ :: evs' => breadths evs'
  | [] => []
  end.

(** Temperature and token limit of the chat models configured. *)
Fixpoint chat_settings (evs : list (event * option exn)) : list (Q * Z) :=
  match evs with
  | (ChatInit c, _) :: evs' => (temperature c, max_tokens c) :: chat_settings evs'
  | _ :: evs' => chat_settings evs'
  | [] => []
  end.

(** The embedding model as process-wide state: a second retriever built in
    the same process loads no model and holds the instance of the first. *)
Definition loaded_once (L : library) : Prop :=
  forall text1 text2 w r1 w1 r2 w2 calls,
    build_retriever_from_text L text1 None None None w = (Ok r1, w1) ->
    build_retriever_from_text L text2 None None None w1 = (Ok r2, w2) ->
    appended w1 w2 calls ->
    model_loads calls = []
    /\ vs_embeddings L (vectorstore L r2) = vs_embeddings L (vectorstore L r1).

(** Summarizing the empty text sends nothing to the hosted model: the run
    ends in a [ValidationError] or in an empty summary. *)
Definition empty_text_guarded (L : library) : Prop :=
  forall name w,
    let run := summarize_text L "" name w in
    exists calls, appended w (snd run) calls
      /\ completions calls = []
      /\ (fst run = Ok "" \/ exists msg, fst run = Raise (Exception "ValidationError" msg)).

(** *** Flows

    A flow is the outcome of a sequence of library calls: what is returned
    or raised, and the calls made.  After a call that raises, nothing
    follows. *)
Definition flow (E A : Type) : Type := (result A * list (E * option exn))%type.

Definition done {E A} (a : A) : flow E A := (Ok a, []).

Definition asks {E A} (e : E) (r : result A) : flow E A := (r, [(e, failure r)]).

Definition seq {E A B} (f : flow E A) (k : A -> flow E B) : flow E B :=
  match fst f with
  | Ok a => (fst (k a), (snd f ++ snd (k a))%list)
  | Raise x => (Raise x, snd f)
  end.

Definition returned {E} (c : E * option exn) : Prop := snd c = None.

(** Every call returned, or every call but the last returned and the last
    raised the exception the flow ends with. *)
Definition linear {E A} (f : flow E A) : Prop :=
  match fst f with
  | Ok _ => Forall returned (snd f)
  | Raise x => exists pre e, snd f = (pre ++ [failed e x])%list /\ Forall returned pre
  end.

Definition splitter_of (chunk_size overlap : Z) : splitter :=
  {| chunk_size := chunk_size; chunk_overlap := overlap |}.

Definition MiniLM (i : nat) : embeddings :=
  {| model_name := "sentence-transformers/all-MiniLM-L6-v2"; instance := i |}.

(** chunk, embed the chunks, build the index *)
Definition retriever_flow (L : library) (text : string) (size overlap k : Z)
    (i : nat) : flow event (retriever L) :=
  let s := splitter_of size overlap in
  let e := MiniLM i in
  seq (asks (SplitterInit s) (splitter_init L s)) (fun _ =>
  seq (asks (SplitText s text) (split_text L s text)) (fun chunks =>
  seq (asks (EmbeddingsInit e) (embeddings_init L e)) (fun _ =>
  seq (asks (EmbedDocuments e chunks) (embed_documents L e chunks)) (fun vecs =>
  seq (asks (IndexBuild chunks) (index_build L chunks vecs)) (fun ix =>
  seq (asks (AsRetriever k) (as_retriever_init L k)) (fun _ =>
  done {| vectorstore :=
            {| vs_index := ix; vs_embeddings := e; vs_texts := chunks |};
          search_k := k |})))))).

Definition llm_flow (L : library) (name : string) (t : Q) (n : Z)
  : flow event chat_model :=
  let llm := together L name t n in
  seq (asks (Getenv "TOGETHER_API_KEY") (Ok (environ L "TOGETHER_API_KEY"))) (fun _ =>
  seq (asks (ChatInit llm) (chat_init L llm)) (fun _ =>
  done llm)).

(** embed the question, retrieve, build the prompt, call the hosted model *)
Definition answer_flow (L : library) (r : retriever L) (llm : chat_model)
    (question : string) : flow event (pyval * pyval) :=
  let e := vs_embeddings L (vectorstore L r) in
  let k := search_k L r in
  seq (asks (EmbedQuery e question) (embed_query L e question)) (fun qv =>
  seq (asks (IndexSearch k) (index_search L (vs_index L (vectorstore L r)) qv k))
      (fun docs =>
  let prompt := stuff_prompt L docs question in
  seq (asks (Completion llm prompt) (completion L llm prompt)) (fun out =>
  done (VStr (content out), VList docs)))).

Definition qa_flow (L : library) (text question name : string) (i : nat)
  : flow event (pyval * pyval) :=
  seq (retriever_flow L text 800 100 3 i) (fun r =>
  seq (llm_flow L name (2 # 10)%Q 512) (fun llm =>
  seq (asks (ChainInit "stuff" true) (chain_init L "stuff" true)) (fun _ =>
  answer_flow L r llm question))).

Definition summary_flow (L : library) (text name : string) : flow event string :=
  seq (llm_flow L name (2 # 10)%Q 400) (fun llm =>
  let prompt := instruction +:+ text in
  seq (asks (Completion llm prompt) (completion L llm prompt)) (fun out =>
  done (strip (content out)))).

End Spec.

(** ** A concrete library, to run the functions on *)

Module Demo.
Import Analysis.

Definition environ (name : string) : option string :=
  if String.eqb name "TOGETHER_API_KEY" then Some "tgp_v1_key" else None.

Definition reply : message :=
  {| content := "  - The sky is blue.
" |}.

(** One chunk per text, unit vectors, the index is the list of texts, a
    search returns its first [k] texts, and the hosted model always sends
    [reply]. *)
Definition lib : library :=
  {| vector := unit;
     index := list string;
     Analysis.environ := environ;
     splitter_init := fun _ => Ok tt;
     split_text := fun _ text => Ok [text];
     embeddings_init := fun _ => Ok tt;
     embed_documents := fun _ texts => Ok (map (fun _ => tt) texts);
     index_build := fun texts _ => Ok texts;
     as_retriever_init := fun _ => Ok tt;
     chat_init := fun _ => Ok tt;
     chain_init := fun _ _ => Ok tt;
     embed_query := fun _ _ => Ok tt;
     index_search := fun ix _ k =>
       Ok (map (fun t => {| page_content := t |}) (firstn (Z.to_nat k) ix));
     stuff_prompt := fun docs q =>
       String.concat " " (map page_content docs) +:+ " Question: " +:+ q;
     completion := fun _ _ => Ok reply |}.

Definition start : world event := World 0 [].

Definition sky : string := "The sky is blue. Grass is green. Water is wet.".

Definition question : string := "What color is the sky?".

Definition llm400 : chat_model :=
  Spec.together lib "meta-llama/Llama-Vision-Free" (2 # 10)%Q 400.

Definition llm512 : chat_model :=
  Spec.together lib "meta-llama/Llama-Vision-Free" (2 # 10)%Q 512.

(** The retriever built from one text, with the model [i], and the calls
    made to build it. *)
Definition built (text : string) (i : nat) : retriever lib :=
  {| vectorstore :=
       {| vs_index := [text] : index lib;
          vs_embeddings := Spec.MiniLM i;
          vs_texts := [text] |};
     search_k := 3 |}.

Definition building (text : string) (i : nat) : list (event * option exn) :=
  map ok [SplitterInit (Spec.splitter_of 800 100);
          SplitText (Spec.splitter_of 800 100) text;
          EmbeddingsInit (Spec.MiniLM i);
          EmbedDocuments (Spec.MiniLM i) [text]; IndexBuild [text];
          AsRetriever 3].

End Demo.

Module PdfSpec.
Import Processing.

Section Vocabulary.

Variable L : library.

(** The tables pdfplumber finds on a page. *)
Definition tables_of (p : plumber_page L) : list (table L) :=
  match page_extract_tables L p with
  | Ok t => map RowsTable (or_empty t)
  | Raise _ => []
  end.

(** The calls of the two loops, when they return. *)
Definition extracts (p : plumber_page L) : event L * option exn :=
  ok (ExtractTables p).

Definition inserts (src : list (page L)) (i : Z) : event L * option exn :=
  ok (InsertPdf src i i).

(** The call to Camelot, with what came of it. *)
Definition structured (path : string) : event L * option exn :=
  (CamelotReadPdf path "all", failure (camelot_read_pdf L path "all")).

(** Camelot raised an [Exception] or found no table. *)
Definition structured_gave_up (path : string) : Prop :=
  camelot_read_pdf L path "all" = Ok []
  \/ exists cls msg, camelot_read_pdf L path "all" = Raise (Exception cls msg).

(** Every list of page numbers of the source gives an output document:
    [reorder_pages] returns the path, having saved a document with one page
    for each entry, the j-th being page [new_order[j]] of the source. *)
Definition always_reordered : Prop :=
  forall path new_order out w src,
    fitz_open L path = Ok src ->
    Forall (fun i => 0 <= i < Z.of_nat (length src)) new_order ->
    let output_path := default "reordered.pdf" out in
    exists dst w',
      reorder_pages L path new_order out w = (Ok output_path, w')
      /\ In (ok (Save dst output_path)) (trace w')
      /\ length dst = length new_order
      /\ (forall j i, nth_error new_order j = Some i ->
                      nth_error dst j = nth_error src (Z.to_nat i)).

End Vocabulary.

Arguments tables_of {L} p.
Arguments extracts {L} p.
Arguments inserts {L} src i.

End PdfSpec.

(** A concrete Camelot, pdfplumber and PyMuPDF.  Camelot finds the tables
    of "tables.pdf" only and fails on "scan.pdf"; pdfplumber sees two pages,
    the second without tables; every document opened has three pages. *)
Module DemoPdf.
Import Processing.

Definition lib : library :=
  {| dataframe := string;
     rows := list (list string);
     plumber_page := nat;
     page := string;
     camelot_read_pdf := fun path _ =>
       if String.eqb path "tables.pdf" then Ok ["df1"; "df2"]
       else if String.eqb path "scan.pdf"
            then Raise (Exception "NotImplementedError" "image-based")
            else Ok [];
     pdfplumber_open := fun _ => Ok [0%nat; 1%nat];
     page_extract_tables := fun p =>
       match p with
       | O => Ok (Some [[["a"; "b"]]; [["c"]]])
       | _ => Ok None
       end;
     fitz_open := fun _ => Ok ["p0"; "p1"; "p2"];
     insert_pdf_outside := fun dst _ _ _ => Ok dst;
     fitz_save := fun _ _ => Ok tt |}.

Definition start : world (event lib) := World 0 [].

Definition pages : list (page lib) := ["p0"; "p1"; "p2"].

End DemoPdf.

(** The same libraries, with the [save] of PyMuPDF, which refuses a document
    without pages ("cannot save with zero pages"). *)
Module DemoSave.
Import Processing.

Definition lib : library :=
  {| dataframe := dataframe DemoPdf.lib;
     rows := rows DemoPdf.lib;
     plumber_page := plumber_page DemoPdf.lib;
     page := page DemoPdf.lib;
     camelot_read_pdf := camelot_read_pdf DemoPdf.lib;
     pdfplumber_open := pdfplumber_open DemoPdf.lib;
     page_extract_tables := page_extract_tables DemoPdf.lib;
     fitz_open := fitz_open DemoPdf.lib;
     insert_pdf_outside := insert_pdf_outside DemoPdf.lib;
     fitz_save := fun doc _ =>
       match doc with
       | [] => Raise (Exception "ValueError" "cannot save with zero pages")
       | _ => Ok tt
       end |}.

Definition start : world (event lib) := World 0 [].

End DemoSave.

(** ** More of the Python runtime: text and numbers *)

Module PyStr.

Definition is_decimal (c : ascii) : bool :=
  let n := N_of_ascii c in ((48 <=? n) && (n <=? 57))%N.

(** [c.isdigit()] on the code points below 256: the decimal digits and the
    superscripts 2, 3 and 1. *)
Definition isdigit_char (c : ascii) : bool :=
  let n := N_of_ascii c in
  (is_decimal c || (n =? 178) || (n =? 179) || (n =? 185))%N.

Fixpoint every (p : ascii -> bool) (s : string) : bool :=
  match s with
  | String c s' => p c && every p s'
  | EmptyString => true
  end.

(** [s.isdigit()]: false for the empty string. *)
Definition isdigit (s : string) : bool :=
  match s with
  | EmptyString => false
  | _ => every isdigit_char s
  end.

(** [s.split(sep)] for a separator of one character. *)
Fixpoint split (sep : ascii) (s : string) : list string :=
  match s with
  | EmptyString => [EmptyString]
  | String c s' =>
      if Ascii.eqb c sep then EmptyString :: split sep s'
      else match split sep s' with
           | field :: fields => String c field :: fields
           | [] => [String c EmptyString]
           end
  end.

(** [sep.join(fields)] *)
Definition join (sep : string) (fields : list string) : string :=
  String.concat sep fields.

(** [str(i)] *)
Definition str (i : Z) : string :=
  DecimalString.NilZero.string_of_int (Z.to_int i).

(** The digits of an integer literal after its sign: decimal digits, with
    single underscores allowed between two digits.  Returns the digits
    without the underscores. *)
Fixpoint literal_digits (after_digit : bool) (s : string) : option string :=
  match s with
  | EmptyString => if after_digit then Some EmptyString else None
  | String c s' =>
      if is_decimal c then option_map (String c) (literal_digits true s')
      else if Ascii.eqb c "_" then
        if after_digit
        then match s' with
             | EmptyString => None
             | _ => literal_digits false s'
             end
        else None
      else None
  end.

(** The sign of an integer literal, and what follows the sign. *)
Definition sign_and_body (t : string) : bool * string :=
  match t with
  | String "+" r => (false, r)
  | String "-" r => (true, r)
  | _ => (false, t)
  end.

(** The whitespace [int] skips around a literal: the characters of
    [str.isspace] but the separators FS..US (code points 28 to 31), which
    [int] rejects. *)
Definition int_space (c : ascii) : bool :=
  let n := N_of_ascii c in
  ((9 <=? n) && (n <=? 13) || (n =? 32) || (n =? 133) || (n =? 160))%N.

Fixpoint int_lstrip (s : string) : string :=
  match s with
  | String c s' => if int_space c then int_lstrip s' else s
  | EmptyString => EmptyString
  end.

Fixpoint int_rstrip (s : string) : string :=
  match s with
  | String c s' =>
      match int_rstrip s' with
      | EmptyString => if int_space c then EmptyString else String c EmptyString
      | t => String c t
      end
  | EmptyString => EmptyString
  end.

(** [int(s)].  Whitespace around the literal is skipped and one sign is
    allowed.  [max_str_digits] is the interpreter's limit on the number of
    digits ([sys.get_int_max_str_digits()], 4300 by default, 0 for none). *)
Definition int (max_str_digits : N) (s : string) : result Z :=
  let '(negative, body) := sign_and_body (int_rstrip (int_lstrip s)) in
  match literal_digits false body with
  | None => Raise (Exception "ValueError" s)
  | Some digits =>
      if ((0 <? max_str_digits) && (max_str_digits <? N.of_nat (String.length digits)))%N
      then Raise (Exception "ValueError" "Exceeds the limit for integer string conversion")
      else match DecimalString.NilEmpty.uint_of_string digits with
           | Some d => Ok (if negative then - Z.of_uint d else Z.of_uint d)
           | None => Raise (Exception "ValueError" s)
           end
  end.

End PyStr.

(** ** More of the Python runtime: loops *)

Module PyIter.

(** [range(a, b)] *)
Definition range (a b : Z) : list Z :=
  map (fun k => a + Z.of_nat k) (seq 0 (Z.to_nat (b - a))).

(** [for x in xs: body], threading the variables the body updates. *)
Fixpoint for_each {E A S : Type} (xs : list A) (body : A -> S -> M E S) (s : S)
  : M E S :=
  match xs with
  | [] => ret s
  | x :: xs' => s' <- body x s ;; for_each xs' body s'
  end.

End PyIter.

(** ** main.py: reading a list of page numbers *)

Module App.
Import PyStr.

(** [[int(x.strip()) for x in fields if x.strip().isdigit()]] *)
Fixpoint digit_fields (max_str_digits : N) (fields : list string)
  : result (list Z) :=
  match fields with
  | [] => Ok []
  | x :: fields' =>
      if isdigit (strip x)
      then match int max_str_digits (strip x) with
           | Ok i =>
               match digit_fields max_str_digits fields' with
               | Ok l => Ok (i :: l)
               | Raise e => Raise e
               end
           | Raise e => Raise e
           end
      else digit_fields max_str_digits fields'
  end.

(** [[int(x.strip()) for x in text.split(",") if x.strip().isdigit()]], the
    reading of the text typed for "Reorder Pages" and "Rotate Pages". *)
Definition page_numbers (max_str_digits : N) (text : string) : result (list Z) :=
  digit_fields max_str_digits (split "," text).

(** Vocabulary: a field holds no comma; a number has few enough digits for
    [int]. *)
Definition no_comma (s : string) : bool :=
  every (fun c => negb (Ascii.eqb c ",")) s.

Definition within_limit (max_str_digits : N) (i : Z) : Prop :=
  max_str_digits = 0%N
  \/ (N.of_nat (String.length (str i)) <= max_str_digits)%N.

(** One field of a typed list: a number with whitespace around it. *)
Definition padded (entry : string * Z * string) : string :=
  let '(l, i, r) := entry in l +:+ str i +:+ r.

Definition well_padded (max_str_digits : N) (entry : string * Z * string) : Prop :=
  let '(l, i, r) := entry in
  all_space l = true /\ all_space r = true /\ 0 <= i
  /\ within_limit max_str_digits i.

End App.

(** ** utils/pdf_processing.py: the PyPDF2 tools *)

Module PdfTools.
Import PyStr PyIter.

(** What PyPDF2 answers.  A document that can be read is the list of its
    pages; [upload] is a file-like object and [pdf_bytes] the content of a
    written PDF.  [page_outside] is what [reader.pages[i]] does for an [i]
    that is not the index of a page. *)
Record library : Type :=
  { page : Type;
    upload : Type;
    pdf_bytes : Type;
    read_path : string -> result (list page);
    read_upload : upload -> result (list page);
    page_outside : list page -> Z -> result page;
    write_pdf : list page -> result pdf_bytes }.

Section Functions.

Variable L : library.

(** An element of the list given to [merge_pdfs]: a file-like object (it
    has a [read] attribute) or a path. *)
Inductive source : Type :=
| Upload (f : upload L)
| Path (p : string).

Inductive event : Type :=
| ReadPdf (s : source)
| WritePdf (pages : list (page L)).

Local Abbreviation Run A := (M event A).

(** [PdfReader(f) if hasattr(f, "read") else PdfReader(str(f))] *)
Definition PdfReader (s : source) : Run (list (page L)) :=
  call (ReadPdf s)
       (match s with
        | Upload f => read_upload L f
        | Path p => read_path L p
        end).

(** [reader.pages[i]] *)
Definition getitem (pages : list (page L)) (i : Z) : result (page L) :=
  if (0 <=? i)%Z
  then match nth_error pages (Z.to_nat i) with
       | Some p => Ok p
       | None => page_outside L pages i
       end
  else page_outside L pages i.

(** [writer.write(out); out.seek(0)]: the bytes of the PDF made of the pages
    added to the writer. *)
Definition write (writer : list (page L)) : Run (pdf_bytes L) :=
  call (WritePdf writer) (write_pdf L writer).

(** The ZIP is the list of its entries, name and content, in the order
    written. *)
Definition split_pdf_pages (pdf_path : string) (start_page end_page : Z)
  : Run (list (string * pdf_bytes L)) :=
  reader <- PdfReader (Path pdf_path) ;;
  for_each (range start_page (end_page + 1))
    (fun i zipf =>
       page <- lift (getitem reader (i - 1)) ;;
       pdf_bytes <- write [page] ;;
       ret (zipf ++ [("page_" +:+ str i +:+ ".pdf", pdf_bytes)])%list)
    [].

Definition merge_pdfs (files_or_paths : list source) : Run (pdf_bytes L) :=
  writer <- for_each files_or_paths
              (fun f writer =>
                 reader <- PdfReader f ;;
                 ret (writer ++ reader)%list)
              [] ;;
  write writer.

Definition extract_page_range (pdf_path : string) (start_page end_page : Z)
  : Run (pdf_bytes L) :=
  reader <- PdfReader (Path pdf_path) ;;
  writer <- for_each (range start_page (end_page + 1))
              (fun i writer =>
                 page <- lift (getitem reader (i - 1)) ;;
                 ret (writer ++ [page])%list)
              [] ;;
  write writer.

Definition remove_first_last_pages (pdf_path : string)
    (remove_first remove_last : bool) : Run (pdf_bytes L) :=
  reader <- PdfReader (Path pdf_path) ;;
  let total := Z.of_nat (length reader) in
  writer <- for_each (range 0 total)
              (fun i writer =>
                 if (remove_first && (i =? 0)%Z)
                    || (remove_last && (i =? total - 1)%Z)
                 then ret writer
                 else page <- lift (getitem reader i) ;;
                      ret (writer ++ [page])%list)
              [] ;;
  write writer.

End Functions.

Arguments Upload {L} f.
Arguments Path {L} p.
Arguments ReadPdf {L} s.
Arguments WritePdf {L} pages.

(** Vocabulary. *)
Section Vocabulary.

Variable L : library.

(** The pages [a..b], counted from 1. *)
Definition pages_between (pages : list (page L)) (a b : Z) : list (page L) :=
  firstn (Z.to_nat (b - a + 1)) (skipn (Z.to_nat (a - 1)) pages).

(** The outcome of writing [pages], as a result and as a recorded call. *)
Definition written (pages : list (page L)) : event L * option exn :=
  (WritePdf pages, failure (write_pdf L pages)).

Definition without_first (b : bool) (pages : list (page L)) : list (page L) :=
  if b then tl pages else pages.

Definition without_last (b : bool) (pages : list (page L)) : list (page L) :=
  if b then removelast pages else pages.

Definition entry_name (i : Z) : string := "page_" +:+ str i +:+ ".pdf".

End Vocabulary.

Arguments pages_between {L} pages a b.
Arguments written {L} pages.
Arguments without_first {L} b pages.
Arguments without_last {L} b pages.

End PdfTools.

(** A concrete PyPDF2: every path but "missing.pdf" holds the same four
    pages, an upload is its own list of pages, and the bytes of a written
    PDF are its pages. *)
Module DemoTools.
Import PdfTools.

Definition lib : library :=
  {| page := string;
     upload := list string;
     pdf_bytes := list string;
     read_path := fun p =>
       if String.eqb p "missing.pdf"
       then Raise (Exception "FileNotFoundError" p)
       else Ok ["p1"; "p2"; "p3"; "p4"];
     read_upload := fun f => Ok f;
     page_outside := fun _ _ => Raise (Exception "IndexError" "sequence index out of range");
     write_pdf := fun pages => Ok pages |}.

Definition start : world (event lib) := World 0 [].

Definition pages : list (page lib) := ["p1"; "p2"; "p3"; "p4"].

End DemoTools.

(** ** utils/pdf_processing.py and utils/pdf_export.py: the PyMuPDF tools *)

Module FitzTools.
Import PyStr PyIter.

(** The dictionary [doc.extract_image(xref)] returns, as far as it is
    read: the keys "image" and "ext", each present or not. *)
Record image_dict (bytes : Type) : Type :=
  { image : option bytes; ext : option string }.
Arguments image {bytes} _.
Arguments ext {bytes} _.

(** What PyMuPDF, Tesseract and the file system answer.  A document is the
    list of its pages; a method that changes a page answers with the page
    as changed.  [page_outside] is what [doc[p]] does for a [p] that is not
    the index of a page: it raises, or gives a page and its index. *)
Record library : Type :=
  { page : Type;
    rect : Type;
    pixmap : Type;
    bytes : Type;
    picture : Type;
    fitz_open : string -> result (list page);
    get_text : page -> result string;
    get_pixmap : page -> result pixmap;
    tobytes : pixmap -> string -> result bytes;
    image_open : bytes -> result picture;
    image_to_string : picture -> string -> string -> result string;
    write_text : string -> string -> result unit;
    page_outside : list page -> Z -> result (nat * page);
    set_rotation : page -> Z -> result page;
    search_for : page -> string -> result (list rect);
    add_highlight_annot : page -> rect -> result page;
    save : list page -> string -> result unit;
    save_compact : list page -> string -> result unit;
    makedirs : string -> result unit;
    get_images : page -> result (list Z);
    extract_image : Z -> result (image_dict bytes);
    path_join : string -> string -> string;
    write_bytes : string -> bytes -> result unit;
    isdir : string -> bool;
    listdir : string -> result (list string) }.

Section Functions.

Variable L : library.

Inductive event : Type :=
| Open (path : string)
| GetText (p : page L)
| GetPixmap (p : page L)
| ToBytes (format : string)
| ImageOpen
| ImageToString (lang config : string)
| WriteText (path text : string)
| SetRotation (index : nat) (angle : Z)
| SearchFor (index : nat) (keyword : string)
| AddHighlight (index : nat) (r : rect L)
| Save (doc : list (page L)) (path : string)
| SaveCompact (doc : list (page L)) (path : string)
| MakeDirs (path : string)
| GetImages (index : nat)
| ExtractImage (xref : Z)
| WriteBytes (path : string) (data : bytes L)
| IsDir (path : string)
| ListDir (path : string).

Local Abbreviation Run A := (M event A).

(** [enumerate(xs)] *)
Definition enumerate {A} (xs : list A) : list (nat * A) :=
  combine (seq 0 (length xs)) xs.

(** *** utils/pdf_processing.py *)

Definition extract_text_from_pdf (pdf_path : string) : Run string :=
  doc <- call (Open pdf_path) (fitz_open L pdf_path) ;;
  for_each doc
    (fun page text =>
       t <- call (GetText page) (get_text L page) ;;
       ret (text +:+ t))
    "".

Definition ocr_pdf (pdf_path : string) (lang : option string) : Run string :=
  let lang := default "eng" lang in
  doc <- call (Open pdf_path) (fitz_open L pdf_path) ;;
  for_each doc
    (fun page text =>
       pix <- call (GetPixmap page) (get_pixmap L page) ;;
       png <- call (ToBytes "png") (tobytes L pix "png") ;;
       img <- call ImageOpen (image_open L png) ;;
       let custom_config := "--oem 3 --psm 6" in
       t <- call (ImageToString lang custom_config)
                 (image_to_string L img lang custom_config) ;;
       ret (text +:+ (t +:+ "
")))
    "".

(** [doc[p]]: the page and where it is in the document. *)
Definition getitem (doc : list (page L)) (p : Z) : result (nat * page L) :=
  if (0 <=? p)%Z
  then match doc !! Z.to_nat p with
       | Some pg => Ok (Z.to_nat p, pg)
       | None => page_outside L doc p
       end
  else page_outside L doc p.

Definition rotate_pages (pdf_path : string) (pages_to_rotate : list Z)
    (angle : Z) (output_path : option string) : Run string :=
  let output_path := default "rotated.pdf" output_path in
  doc <- call (Open pdf_path) (fitz_open L pdf_path) ;;
  doc <- for_each pages_to_rotate
           (fun p doc =>
              found <- lift (getitem doc p) ;;
              let '(i, pg) := found in
              pg' <- call (SetRotation i angle) (set_rotation L pg angle) ;;
              ret (<[i := pg']> doc))
           doc ;;
  call (Save doc output_path) (save L doc output_path) ;;;
  ret output_path.

Definition keyword_highlight_pdf (pdf_path keyword : string)
    (output_path : option string) : Run string :=
  let output_path := default "highlighted.pdf" output_path in
  doc <- call (Open pdf_path) (fitz_open L pdf_path) ;;
  doc <- for_each (enumerate doc)
           (fun numbered doc =>
              let '(i, page) := numbered in
              matches <- call (SearchFor i keyword) (search_for L page keyword) ;;
              page <- for_each matches
                        (fun rect page =>
                           call (AddHighlight i rect)
                                (add_highlight_annot L page rect))
                        page ;;
              ret (<[i := page]> doc))
           doc ;;
  call (SaveCompact doc output_path) (save_compact L doc output_path) ;;;
  ret output_path.

(** [base["image"]] *)
Definition image_of (base : image_dict (bytes L)) : result (bytes L) :=
  match image base with
  | Some b => Ok b
  | None => Raise (Exception "KeyError" "image")
  end.

Definition extract_images (pdf_path : string) (output_folder : option string)
  : Run (list string) :=
  let output_folder := default "extracted_images" output_folder in
  call (MakeDirs output_folder) (makedirs L output_folder) ;;;
  doc <- call (Open pdf_path) (fitz_open L pdf_path) ;;
  for_each (enumerate doc)
    (fun numbered saved =>
       let '(i, page) := numbered in
       images <- call (GetImages i) (get_images L page) ;;
       for_each (enumerate images)
         (fun numbered saved =>
            let '(idx, xref) := numbered in
            base <- call (ExtractImage xref) (extract_image L xref) ;;
            img_bytes <- lift (image_of base) ;;
            let ext := default "png" (ext base) in
            let out_path :=
              path_join L output_folder
                ("page_" +:+ str (Z.of_nat i + 1) +:+ "_img_"
                 +:+ str (Z.of_nat idx + 1) +:+ "." +:+ ext) in
            call (WriteBytes out_path img_bytes)
                 (write_bytes L out_path img_bytes) ;;;
            ret (saved ++ [out_path])%list)
         saved)
    [].

(** *** utils/pdf_export.py *)

Definition export_to_text (pdf_path : string) (output_path : option string)
  : Run string :=
  let output_path := default "output.txt" output_path in
  doc <- call (Open pdf_path) (fitz_open L pdf_path) ;;
  text <- for_each doc
            (fun page text =>
               t <- call (GetText page) (get_text L page) ;;
               ret (text +:+ t))
            "" ;;
  call (WriteText output_path text) (write_text L output_path text) ;;;
  ret output_path.

(** *** main.py: the tool "Extract Images"

    [show] is the body of the [if]: the download button and the previews
    of the images of a folder. *)

Variable show : string -> Run unit.

(** [xs[0]] *)
Definition first {A} (xs : list A) : result A :=
  match xs with
  | x :: _ => Ok x
  | [] => Raise (Exception "IndexError" "list index out of range")
  end.

Definition extract_images_tool (pdf_path : string) : Run unit :=
  folder <- extract_images pdf_path (Some "images_out") ;;
  folder <- lift (first folder) ;;
  is_dir <- call (IsDir folder) (Ok (isdir L folder)) ;;
  if is_dir
  then names <- call (ListDir folder) (listdir L folder) ;;
       if (0 <? Z.of_nat (length names))%Z then show folder else ret tt
  else ret tt.

End Functions.

Arguments Open {L} path.
Arguments GetText {L} p.
Arguments GetPixmap {L} p.
Arguments ToBytes {L} format.
Arguments ImageOpen {L}.
Arguments ImageToString {L} lang config.
Arguments WriteText {L} path text.
Arguments SetRotation {L} index angle.
Arguments SearchFor {L} index keyword.
Arguments AddHighlight {L} index r.
Arguments Save {L} doc path.
Arguments SaveCompact {L} doc path.
Arguments MakeDirs {L} path.
Arguments GetImages {L} index.
Arguments ExtractImage {L} xref.
Arguments WriteBytes {L} path data.
Arguments IsDir {L} path.
Arguments ListDir {L} path.

End FitzTools.

(** ** main.py: the tool "Reorder Pages" *)

Module Tools.
Import PyStr App Processing.

Section Functions.

Variable L : library.

(** The limit of [int] on digits, [out_file] (a path under the folder of
    the outputs), and the download offered for the file at a path. *)
Variable max_str_digits : N.
Variable out_file : string -> string.
Variable offer : string -> M (event L) unit.

(** [clicked] is what [st.button("Reorder")] returns and [order_str] the
    text typed. *)
Definition reorder_tool (pdf_path order_str : string) (clicked : bool)
  : M (event L) unit :=
  if clicked && negb (String.eqb (strip order_str) "")
  then new_order <- lift (page_numbers max_str_digits order_str) ;;
       out_path <- reorder_pages L pdf_path new_order
                     (Some (out_file "reordered.pdf")) ;;
       offer out_path
  else ret tt.

End Functions.

End Tools.

(** Vocabulary for the PyMuPDF tools. *)
Module FitzSpec.
Import PyStr PyIter FitzTools.

Section Vocabulary.

Variable L : library.

(** The texts one after the other. *)
Definition joined (texts : list string) : string :=
  fold_right String.append "" texts.

(** What Tesseract reads on a page: the page is drawn, the drawing is
    opened as a PNG picture, and the picture is read. *)
Definition recognize (lang : string) (p : page L) : result string :=
  match get_pixmap L p with
  | Ok pix =>
      match tobytes L pix "png" with
      | Ok png =>
          match image_open L png with
          | Ok img => image_to_string L img lang "--oem 3 --psm 6"
          | Raise x => Raise x
          end
      | Raise x => Raise x
      end
  | Raise x => Raise x
  end.

Definition line (t : string) : string := t +:+ "
".

(** The file [extract_images] writes for the image [idx] of the page [i],
    both counted from 0, given what PyMuPDF extracted: the extension is the
    one PyMuPDF names, "png" when it names none. *)
Definition image_path (folder : string) (i idx : nat)
    (base : image_dict (bytes L)) : string :=
  path_join L folder
    ("page_" +:+ str (Z.of_nat i + 1) +:+ "_img_"
     +:+ str (Z.of_nat idx + 1) +:+ "." +:+ default "png" (ext base)).

(** The calls [extract_images] makes for one image: PyMuPDF extracts it and
    its bytes are written to its file. *)
Definition image_calls (folder : string) (i idx : nat) (xref : Z)
    (base : image_dict (bytes L)) (data : bytes L)
  : list (event L * option exn) :=
  [ok (ExtractImage xref);
   ok (WriteBytes (image_path folder i idx base) data)].

(** The calls [extract_images] makes for the page [i], whose images are
    [xrefs]: the images are listed, then handled one after the other. *)
Definition page_calls (folder : string)
    (base_of : Z -> image_dict (bytes L)) (data_of : Z -> bytes L)
    (i : nat) (xrefs : list Z) : list (event L * option exn) :=
  ok (GetImages i)
  :: concat (imap (fun idx xref =>
                     image_calls folder i idx xref (base_of xref) (data_of xref))
                  xrefs).

(** The files a run wrote, with their content, in the order written. *)
Fixpoint files_written (calls : list (event L * option exn))
  : list (string * bytes L) :=
  match calls with
  | (WriteBytes path data, None) :: calls' => (path, data) :: files_written calls'
  | _ :: calls' => files_written calls'
  | [] => []
  end.

(** A call that saved a document. *)
Definition is_save (c : event L * option exn) : bool :=
  match c with
  | (Save _ _, _) => true
  | (SaveCompact _ _, _) => true
  | _ => false
  end.

End Vocabulary.

Arguments is_save {L} c.
Arguments image_path {L} folder i idx base.
Arguments image_calls {L} folder i idx xref base data.
Arguments page_calls {L} folder base_of data_of i xrefs.
Arguments files_written {L} calls.

End FitzSpec.

(** A concrete PyMuPDF: every document has the pages "a", "b", "c"; the
    text of a page is its name followed by a dot; a rotation or a highlight
    is written after the name of the page; no path is a folder. *)
Module DemoFitz.
Import FitzTools.

Definition lib : library :=
  {| page := string;
     rect := nat;
     pixmap := string;
     bytes := string;
     picture := string;
     fitz_open := fun _ => Ok ["a"; "b"; "c"];
     get_text := fun p => Ok (p +:+ ".");
     get_pixmap := fun p => Ok p;
     tobytes := fun pix _ => Ok pix;
     image_open := fun b => Ok b;
     image_to_string := fun img _ _ => Ok img;
     write_text := fun _ _ => Ok tt;
     page_outside := fun _ _ => Raise (Exception "IndexError" "page not in document");
     set_rotation := fun p angle => Ok (p +:+ "@" +:+ PyStr.str angle);
     search_for := fun p keyword => if String.eqb p keyword then Ok [1%nat; 2%nat] else Ok [];
     add_highlight_annot := fun p _ => Ok (p +:+ "!");
     save := fun _ _ => Ok tt;
     save_compact := fun _ _ => Ok tt;
     makedirs := fun _ => Ok tt;
     get_images := fun p => if String.eqb p "b" then Ok [7; 9] else Ok [];
     extract_image := fun xref =>
       Ok {| image := Some "bytes"; ext := if (xref =? 7)%Z then Some "jpeg" else None |};
     path_join := fun a b => a +:+ "/" +:+ b;
     write_bytes := fun _ _ => Ok tt;
     isdir := fun _ => false;
     listdir := fun _ => Ok [] |}.

(** The same, with documents that hold no image. *)
Definition plain : library :=
  {| page := string;
     rect := nat;
     pixmap := string;
     bytes := string;
     picture := string;
     fitz_open := fitz_open lib;
     get_text := get_text lib;
     get_pixmap := get_pixmap lib;
     tobytes := tobytes lib;
     image_open := image_open lib;
     image_to_string := image_to_string lib;
     write_text := write_text lib;
     page_outside := page_outside lib;
     set_rotation := set_rotation lib;
     search_for := search_for lib;
     add_highlight_annot := add_highlight_annot lib;
     save := save lib;
     save_compact := save_compact lib;
     makedirs := makedirs lib;
     get_images := fun _ => Ok [];
     extract_image := extract_image lib;
     path_join := path_join lib;
     write_bytes := write_bytes lib;
     isdir := isdir lib;
     listdir := listdir lib |}.

Definition start : world (event lib) := World 0 [].

Definition doc : list (page lib) := ["a"; "b"; "c"].

Definition no_show (folder : string) : M (event lib) unit := ret tt.

End DemoFitz.

(** The application around the concrete libraries: outputs go to the folder
    "outputs" and offering a download does nothing.  [superscript_two] is
    the text of the one character U+00B2. *)
Module DemoApp.
Import Processing.

Definition out_file (name : string) : string := "outputs/" +:+ name.

Definition offer (path : string) : M (event DemoPdf.lib) unit := ret tt.

Definition superscript_two : string := String (ascii_of_N 178) "".

End DemoApp.

(** * Theorems *)

(** ** The monad *)

Section MonadFacts.

Context {E : Type}.

Lemma call_run {A} (e : E) (r : result A) (w : world E) :
  call e r w = (r, after w [(e, failure r)]).
Proof. reflexivity. Qed.

Lemma after_after (w : world E) evs evs' :
  after (after w evs) evs' = after w (evs ++ evs').
Proof. unfold after. simpl. now rewrite <- app_assoc. Qed.

Lemma after_nil (w : world E) : after w [] = w.
Proof. destruct w. unfold after. simpl. now rewrite app_nil_r. Qed.

Lemma bind_ok {A B} (c : M E A) (k : A -> M E B) w a w' :
  c w = (Ok a, w') -> bind c k w = k a w'.
Proof. intros H. unfold bind. now rewrite H. Qed.

Lemma bind_raise {A B} (c : M E A) (k : A -> M E B) w e w' :
  c w = (Raise e, w') -> bind c k w = (Raise e, w').
Proof. intros H. unfold bind. now rewrite H. Qed.

End MonadFacts.

(** ** [str.strip] *)

Section StripFacts.

Lemma append_cons c (a b : string) : String c a +:+ b = String c (a +:+ b).
Proof. reflexivity. Qed.

Lemma append_nil (b : string) : EmptyString +:+ b = b.
Proof. reflexivity. Qed.

Lemma lstrip_split s :
  exists l, s = l +:+ lstrip s /\ all_space l = true
            /\ starts_with_space (lstrip s) = false.
Proof.
  induction s as [|c s IH]; simpl.
  - exists EmptyString. auto.
  - destruct (isspace c) eqn:Hc.
    + destruct IH as (l & Heq & Hl & Hs).
      exists (String c l). simpl. rewrite Hc, Hl. repeat split; auto.
      rewrite append_cons. congruence.
    + exists EmptyString. simpl. auto.
Qed.

Lemma rstrip_split s :
  exists r, s = rstrip s +:+ r /\ all_space r = true
            /\ ends_with_space (rstrip s) = false.
Proof.
  induction s as [|c s IH]; simpl.
  - exists EmptyString. auto.
  - destruct IH as (r & Heq & Hr & He).
    destruct (rstrip s) as [|d t] eqn:Hrs.
    + rewrite append_nil in Heq. subst r.
      destruct (isspace c) eqn:Hc.
      * exists (String c s). simpl. rewrite Hc, Hr. auto.
      * exists s. simpl. rewrite Hc. auto.
    + exists r. repeat split; auto.
      rewrite append_cons. congruence.
Qed.

Lemma rstrip_keeps_start s :
  starts_with_space s = false -> starts_with_space (rstrip s) = false.
Proof.
  destruct s as [|c s]; simpl; auto.
  intros Hc. destruct (rstrip s); simpl; auto.
  now rewrite Hc.
Qed.

Lemma append_assoc (a b c : string) : (a +:+ b) +:+ c = a +:+ (b +:+ c).
Proof. induction a; rewrite ?append_nil, ?append_cons; congruence. Qed.

Lemma strip_trimmed s : Spec.trimmed s (strip s).
Proof.
  unfold Spec.trimmed, strip.
  destruct (lstrip_split s) as (l & Hl & Hls & Hstart).
  destruct (rstrip_split (lstrip s)) as (r & Hr & Hrs & Hend).
  exists l, r. repeat split; auto.
  - now rewrite <- Hr.
  - now apply rstrip_keeps_start.
Qed.

End StripFacts.

(** ** Flows *)

Section FlowFacts.
Import Spec.

Context {E : Type}.

Lemma Forall_returned_no_failure (l : list (E * option exn)) e x :
  Forall returned l -> ~ In (failed e x) l.
Proof.
  intros H Hin. rewrite List.Forall_forall in H.
  apply H in Hin. discriminate Hin.
Qed.

Lemma linear_done {A} (a : A) : linear (@done E A a).
Proof. unfold linear, done. simpl. constructor. Qed.

Lemma linear_asks {A} (e : E) (r : result A) : linear (asks e r).
Proof.
  unfold linear, asks. destruct r as [a|x]; simpl.
  - repeat constructor.
  - exists [], e. split; [reflexivity | constructor].
Qed.

Lemma linear_seq {A B} (f : flow E A) (k : A -> flow E B) :
  linear f -> (forall a, linear (k a)) -> linear (seq f k).
Proof.
  unfold linear, seq. intros Hf Hk.
  destruct (fst f) as [a|x]; simpl; [|exact Hf].
  specialize (Hk a). destruct (fst (k a)) as [b|y].
  - apply Forall_app. split; assumption.
  - destruct Hk as (pre & e & Heq & Hpre).
    exists (snd f ++ pre)%list, e. rewrite Heq, app_assoc. split; [reflexivity|].
    apply Forall_app. split; assumption.
Qed.

(** In a linear flow a call that raised decides the outcome. *)
Lemma linear_failure_propagates {A} (f : flow E A) e x :
  linear f -> In (failed e x) (snd f) -> fst f = Raise x.
Proof.
  unfold linear. intros Hl Hin. destruct (fst f) as [a|y].
  - exfalso. eapply Forall_returned_no_failure; eauto.
  - destruct Hl as (pre & e' & Heq & Hpre). rewrite Heq in Hin.
    apply in_app_or in Hin. destruct Hin as [Hin|[Hin|[]]].
    + exfalso. eapply Forall_returned_no_failure; eauto.
    + unfold failed in Hin. congruence.
Qed.

Lemma linear_failure_last {A} (f : flow E A) x :
  linear f -> fst f = Raise x ->
  exists pre e, snd f = (pre ++ [failed e x])%list /\ Forall returned pre.
Proof. unfold linear. intros Hl Hx. now rewrite Hx in Hl. Qed.

End FlowFacts.

(** ** utils/pdf_analysis.py: how the functions run *)

Section AnalysisRuns.
Import Analysis Spec.

Variable L : library.

Ltac tidy :=
  cbn [fst snd next_id trace failure app default
       vectorstore search_k vs_index vs_embeddings vs_texts
       qa_llm qa_retriever qa_return_source_documents qa_chain_type].

Ltac run_all :=
  unfold rag_qa, summarize_text, together_llm, build_retriever_from_text,
    RetrievalQA_from_chain_type, get_relevant_documents,
    llm_invoke, ChatOpenAI, os_getenv, as_retriever, FAISS_from_texts,
    HuggingFaceEmbeddings, splitter_split_text, RecursiveCharacterTextSplitter,
    qa_flow, summary_flow, answer_flow, llm_flow, retriever_flow,
    splitter_of, MiniLM, together,
    seq, asks, done, call, emit, bind, lift, ret, fresh, after;
  tidy.

Ltac answer :=
  match goal with
  | |- context [match ?r with Ok _ => _ | Raise _ => _ end] =>
      lazymatch r with
      | Ok _ => fail
      | Raise _ => fail
      | context [match _ with Ok _ => _ | Raise _ => _ end] => fail
      | _ => destruct r; tidy
      end
  end.

Lemma retriever_linear text size overlap k i :
  linear (retriever_flow L text size overlap k i).
Proof.
  unfold retriever_flow.
  repeat (apply linear_seq; [apply linear_asks | intros]). apply linear_done.
Qed.

Lemma llm_linear name t n : linear (llm_flow L name t n).
Proof.
  unfold llm_flow.
  repeat (apply linear_seq; [apply linear_asks | intros]). apply linear_done.
Qed.

Lemma qa_linear text question name i : linear (qa_flow L text question name i).
Proof.
  unfold qa_flow.
  apply linear_seq; [apply retriever_linear | intros r].
  apply linear_seq; [apply llm_linear | intros llm].
  unfold answer_flow.
  repeat (apply linear_seq; [apply linear_asks | intros]). apply linear_done.
Qed.

Lemma summary_linear text name : linear (summary_flow L text name).
Proof.
  unfold summary_flow.
  apply linear_seq; [apply llm_linear | intros llm].
  repeat (apply linear_seq; [apply linear_asks | intros]). apply linear_done.
Qed.

Lemma build_retriever_from_text_run text size overlap k w :
  let f := retriever_flow L text (default 800 size) (default 100 overlap)
             (default 3 k) (next_id w) in
  build_retriever_from_text L text size overlap k w =
    (fst f, World (next_id w + length (model_loads (snd f)))%nat
                  (trace w ++ snd f)).
Proof.
  cbv zeta. run_all. destruct w as [i tr]. cbn [next_id trace].
  repeat answer;
    rewrite <- ?app_assoc; cbn [app model_loads length];
    rewrite ?Nat.add_0_r, ?Nat.add_1_r; reflexivity.
Qed.

Lemma together_llm_run name t n w :
  let f := llm_flow L (model_or_default name) (default (2 # 10)%Q t)
             (default 512 n) in
  together_llm L name t n w = (fst f, after w (snd f)).
Proof.
  cbv zeta. unfold model_or_default. run_all.
  repeat answer; rewrite <- ?app_assoc; reflexivity.
Qed.

Lemma summarize_text_run text name w :
  let f := summary_flow L text (model_or_default name) in
  summarize_text L text name w = (fst f, after w (snd f)).
Proof.
  cbv zeta. unfold model_or_default. run_all.
  repeat answer; rewrite <- ?app_assoc; reflexivity.
Qed.

Lemma rag_qa_run text question name w :
  let f := qa_flow L text question (model_or_default name) (next_id w) in
  rag_qa L text question name w =
    (fst f, World (next_id w + length (model_loads (snd f)))%nat
                  (trace w ++ snd f)).
Proof.
  cbv zeta. unfold model_or_default. run_all.
  unfold RetrievalQA_call, getitem, dict_get. rewrite lookup_singleton_eq.
  run_all. destruct w as [i tr]. cbn [next_id trace].
  repeat answer;
    rewrite <- ?app_assoc; cbn [app model_loads length];
    rewrite ?Nat.add_0_r, ?Nat.add_1_r; reflexivity.
Qed.

End AnalysisRuns.

(** ** utils/pdf_analysis.py: what the functions guarantee *)

Section AnalysisClaims.
Import Analysis Spec.

Variable L : library.

Ltac flows :=
  unfold qa_flow, summary_flow, answer_flow, llm_flow, retriever_flow,
    seq, asks, done, splitter_of, MiniLM, together;
  cbn [fst snd failure app default vectorstore search_k vs_index
       vs_embeddings vs_texts].

Ltac cases :=
  repeat match goal with
    | H : context [match ?r with Ok _ => _ | Raise _ => _ end] |- _ =>
        lazymatch r with
        | Ok _ => fail
        | Raise _ => fail
        | context [match _ with Ok _ => _ | Raise _ => _ end] => fail
        | _ =>
            let E := fresh "Hask" in
            destruct r eqn:E;
            cbn [fst snd failure app default vectorstore search_k vs_index
                 vs_embeddings vs_texts] in H |- *;
            try discriminate H
        end
    end.

Lemma retriever_flow_success text size overlap k i r :
  fst (retriever_flow L text size overlap k i) = Ok r ->
  exists chunks,
    snd (retriever_flow L text size overlap k i) =
      map ok [SplitterInit (splitter_of size overlap);
              SplitText (splitter_of size overlap) text;
              EmbeddingsInit (MiniLM i);
              EmbedDocuments (MiniLM i) chunks;
              IndexBuild chunks;
              AsRetriever k]
    /\ vs_embeddings L (vectorstore L r) = MiniLM i
    /\ vs_texts L (vectorstore L r) = chunks
    /\ search_k L r = k.
Proof.
  revert r. flows. intros r H. cases.
  injection H as <-. eexists. repeat split.
Qed.

Lemma summary_flow_success text name r :
  fst (summary_flow L text name) = Ok r ->
  let llm := together L name (2 # 10)%Q 400 in
  exists out,
    completion L llm (instruction +:+ text) = Ok out
    /\ r = strip (content out)
    /\ snd (summary_flow L text name) =
         map ok [Getenv "TOGETHER_API_KEY"; ChatInit llm;
                 Completion llm (instruction +:+ text)].
Proof.
  revert r. flows. intros r H. cases.
  injection H as <-. eexists. repeat split; reflexivity.
Qed.

Lemma qa_flow_success text question name i r :
  fst (qa_flow L text question name i) = Ok r ->
  let s := splitter_of 800 100 in
  let e := MiniLM i in
  let llm := together L name (2 # 10)%Q 512 in
  exists chunks docs out,
    r = (VStr (content out), VList docs)
    /\ snd (qa_flow L text question name i) =
         map ok [SplitterInit s; SplitText s text; EmbeddingsInit e;
                 EmbedDocuments e chunks; IndexBuild chunks; AsRetriever 3;
                 Getenv "TOGETHER_API_KEY"; ChatInit llm;
                 ChainInit "stuff" true;
                 EmbedQuery e question; IndexSearch 3;
                 Completion llm (stuff_prompt L docs question)].
Proof.
  revert r. flows. intros r H. cases.
  injection H as <-. do 3 eexists. repeat split.
Qed.

(** One more answer of a library in the goal, returned or raised. *)
Ltac asked :=
  match goal with
  | |- context [match ?r with Ok _ => _ | Raise _ => _ end] =>
      lazymatch r with
      | Ok _ => fail
      | Raise _ => fail
      | context [match _ with Ok _ => _ | Raise _ => _ end] => fail
      | _ =>
          destruct r;
          cbn [fst snd failure app default vectorstore search_k vs_index
               vs_embeddings vs_texts]
      end
  end.

(** The settings of the chat model of a summary, whatever the libraries
    answer: the client is configured before anything can fail. *)
Lemma summary_flow_settings text name :
  chat_settings (snd (summary_flow L text name)) = [((2 # 10)%Q, 400)].
Proof.
  flows. repeat asked; reflexivity.
Qed.

Lemma summary_flow_no_retrieval text name :
  splitters (snd (summary_flow L text name)) = []
  /\ breadths (snd (summary_flow L text name)) = [].
Proof.
  flows. repeat asked; split; reflexivity.
Qed.

(** The settings of a question-answering run, whatever the libraries
    answer: the splitter is the first object configured, and no other
    breadth or chat setting than the defaults is ever used. *)
Lemma qa_flow_settings text question name i :
  let calls := snd (qa_flow L text question name i) in
  splitters calls = [(800, 100)]
  /\ Forall (fun k => k = 3) (breadths calls)
  /\ Forall (fun s => s = ((2 # 10)%Q, 512)) (chat_settings calls).
Proof.
  cbv zeta. flows.
  repeat asked; repeat split; repeat constructor.
Qed.

(** C4 (as amended).  The embedding model is not kept for the life of the
    process: every call of [build_retriever_from_text] that returns a
    retriever has loaded one model of its own, has embedded with that model
    only, and returns a retriever holding it; the model of a second call is
    a new object, different from the model of the first. *)
Theorem embedding_model_loaded_per_call
    text1 size1 overlap1 k1 text2 size2 overlap2 k2 w r1 w1 r2 w2 :
  build_retriever_from_text L text1 size1 overlap1 k1 w = (Ok r1, w1) ->
  build_retriever_from_text L text2 size2 overlap2 k2 w1 = (Ok r2, w2) ->
  let e1 := vs_embeddings L (vectorstore L r1) in
  let e2 := vs_embeddings L (vectorstore L r2) in
  exists calls1 calls2,
    appended w w1 calls1 /\ appended w1 w2 calls2
    /\ model_loads calls1 = [instance e1] /\ embedders calls1 = [instance e1]
    /\ model_loads calls2 = [instance e2] /\ embedders calls2 = [instance e2]
    /\ instance e2 = S (instance e1).
Proof.
  intros H1 H2. rewrite build_retriever_from_text_run in H1, H2.
  cbv zeta in H1, H2.
  injection H1 as Hr1 Hw1. injection H2 as Hr2 Hw2.
  destruct (retriever_flow_success _ _ _ _ _ _ Hr1) as (c1 & Hc1 & He1 & _).
  destruct (retriever_flow_success _ _ _ _ _ _ Hr2) as (c2 & Hc2 & He2 & _).
  rewrite Hc1 in Hw1. rewrite Hc2 in Hw2.
  cbv zeta. rewrite He1, He2. subst w1 w2. cbn [next_id trace].
  do 2 eexists. unfold appended. cbn [trace].
  repeat split; try reflexivity.
  cbn. lia.
Qed.

(** C5.  [summarize_text] sends one request to the hosted model, whose
    prompt is the fixed instruction followed by the whole text, and returns
    the content of the response with its leading and trailing whitespace
    removed. *)
Theorem summarize_text_prompt_and_trim text name w out :
  let llm := together L (model_or_default name) (2 # 10)%Q 400 in
  chat_init L llm = Ok tt ->
  completion L llm (instruction +:+ text) = Ok out ->
  summarize_text L text name w =
    (Ok (strip (content out)),
     after w (map ok [Getenv "TOGETHER_API_KEY"; ChatInit llm;
                      Completion llm (instruction +:+ text)]))
  /\ completions (map ok [Getenv "TOGETHER_API_KEY"; ChatInit llm;
                          Completion llm (instruction +:+ text)])
     = [(llm, instruction +:+ text)]
  /\ trimmed (content out) (strip (content out)).
Proof.
  intros llm Hinit Hout. rewrite summarize_text_run. cbv zeta.
  unfold summary_flow, llm_flow, seq, asks, done. fold llm.
  cbn [fst snd failure app]. rewrite Hinit. cbn [fst snd failure app].
  rewrite Hout. cbn [fst snd failure app].
  repeat split. apply strip_trimmed.
Qed.

(** C6.  [rag_qa] runs the stages in one fixed order: chunk, embed the
    chunks, build the index, embed the question, retrieve the 3 nearest
    chunks, build the prompt from them and the question, call the hosted
    model; it returns the answer and the retrieved chunks.  A stage that
    raises ends the run with that exception: no stage runs after it and
    nothing is returned. *)
Theorem rag_qa_linear_pipeline text question name w :
  let s := splitter_of 800 100 in
  let e := MiniLM (next_id w) in
  let llm := together L (model_or_default name) (2 # 10)%Q 512 in
  let run := rag_qa L text question name w in
  (forall chunks vecs ix qv docs out,
      splitter_init L s = Ok tt ->
      split_text L s text = Ok chunks ->
      embeddings_init L e = Ok tt ->
      embed_documents L e chunks = Ok vecs ->
      index_build L chunks vecs = Ok ix ->
      as_retriever_init L 3 = Ok tt ->
      chat_init L llm = Ok tt ->
      chain_init L "stuff" true = Ok tt ->
      embed_query L e question = Ok qv ->
      index_search L ix qv 3 = Ok docs ->
      completion L llm (stuff_prompt L docs question) = Ok out ->
      run = (Ok (VStr (content out), VList docs),
             World (S (next_id w))
               (trace w ++
                map ok [SplitterInit s; SplitText s text; EmbeddingsInit e;
                        EmbedDocuments e chunks; IndexBuild chunks;
                        AsRetriever 3;
                        Getenv "TOGETHER_API_KEY"; ChatInit llm;
                        ChainInit "stuff" true;
                        EmbedQuery e question; IndexSearch 3;
                        Completion llm (stuff_prompt L docs question)])))
  /\ exists calls,
       appended w (snd run) calls
       /\ (forall ev x, In (failed ev x) calls -> fst run = Raise x)
       /\ (forall x, fst run = Raise x ->
             exists pre ev, calls = (pre ++ [failed ev x])%list
                            /\ Forall returned pre).
Proof.
  intros s e llm run. subst run. rewrite rag_qa_run. cbv zeta. split.
  - intros chunks vecs ix qv docs out H1 H2 H3 H4 H5 H6 H7 H8 H9 H10 H11.
    unfold qa_flow, answer_flow, llm_flow, retriever_flow, seq, asks, done.
    fold s e llm. cbn [fst snd failure app].
    rewrite H1. cbn [fst snd failure app].
    rewrite H2. cbn [fst snd failure app].
    rewrite H3. cbn [fst snd failure app].
    rewrite H4. cbn [fst snd failure app].
    rewrite H5. cbn [fst snd failure app].
    rewrite H6. cbn [fst snd failure app].
    rewrite H7. cbn [fst snd failure app].
    rewrite H8. cbn [fst snd failure app vectorstore search_k vs_index
                     vs_embeddings].
    rewrite H9. cbn [fst snd failure app vectorstore search_k vs_index
                     vs_embeddings].
    rewrite H10. cbn [fst snd failure app].
    rewrite H11. cbn [fst snd failure app model_loads length].
    rewrite Nat.add_1_r. reflexivity.
  - eexists. split; [reflexivity|]. cbn [fst]. split.
    + intros ev x. apply linear_failure_propagates, qa_linear.
    + intros x. apply linear_failure_last, qa_linear.
Qed.

(** C7 (as amended).  [summarize_text] does not look at the text: for the
    empty text it sends the bare instruction to the hosted model, once, and
    returns the trimmed response. *)
Theorem summarize_empty_text_passes_through name w out :
  let llm := together L (model_or_default name) (2 # 10)%Q 400 in
  chat_init L llm = Ok tt ->
  completion L llm instruction = Ok out ->
  summarize_text L "" name w =
    (Ok (strip (content out)),
     after w (map ok [Getenv "TOGETHER_API_KEY"; ChatInit llm;
                      Completion llm instruction])).
Proof.
  intros llm Hinit Hout. rewrite summarize_text_run. cbv zeta.
  unfold summary_flow, llm_flow, seq, asks, done. fold llm.
  change (instruction +:+ "") with instruction.
  cbn [fst snd failure app]. rewrite Hinit. cbn [fst snd failure app].
  rewrite Hout. reflexivity.
Qed.

(** C8.  The defaults: chunks of 800 characters overlapping by 100, the 3
    nearest chunks retrieved, temperature 0.2, and at most 512 tokens of
    output for question answering and 400 for summarization.  Whatever the
    libraries answer, every run of [rag_qa] configures its splitter with
    800 and 100 and uses no other breadth than 3 and no other chat setting
    than 0.2 and 512, and every run of [summarize_text] configures its
    chat model with 0.2 and 400; a run of [rag_qa] that returns has
    searched with breadth 3 and configured its chat model once.  All token
    limits configured lie between 400 and 512. *)
Theorem default_configuration text question name w :
  build_retriever_from_text L text None None None w
    = build_retriever_from_text L text (Some 800) (Some 100) (Some 3) w
  /\ together_llm L name None None w
     = together_llm L name (Some (2 # 10)%Q) (Some 512) w
  /\ exists qa_calls summary_calls,
       appended w (snd (rag_qa L text question name w)) qa_calls
       /\ appended w (snd (summarize_text L text name w)) summary_calls
       /\ splitters qa_calls = [(800, 100)]
       /\ Forall (fun k => k = 3) (breadths qa_calls)
       /\ Forall (fun s => s = ((2 # 10)%Q, 512)) (chat_settings qa_calls)
       /\ (forall r, fst (rag_qa L text question name w) = Ok r ->
             breadths qa_calls = [3]
             /\ chat_settings qa_calls = [((2 # 10)%Q, 512)])
       /\ chat_settings summary_calls = [((2 # 10)%Q, 400)]
       /\ splitters summary_calls = [] /\ breadths summary_calls = []
       /\ Forall (fun s => 400 <= snd s <= 512)
                 (chat_settings qa_calls ++ chat_settings summary_calls).
Proof.
  split; [reflexivity|]. split; [reflexivity|].
  rewrite rag_qa_run, summarize_text_run. cbv zeta.
  exists (snd (qa_flow L text question (model_or_default name) (next_id w))),
         (snd (summary_flow L text (model_or_default name))).
  destruct (qa_flow_settings text question (model_or_default name) (next_id w))
    as (Hs & Hb & Hc).
  assert (Hsum := summary_flow_settings text (model_or_default name)).
  split; [reflexivity|]. split; [reflexivity|].
  split; [exact Hs|]. split; [exact Hb|]. split; [exact Hc|].
  split; [|split; [exact Hsum|split; [|split]]].
  - cbn [fst]. intros r Hr.
    destruct (qa_flow_success _ _ _ _ _ Hr) as (chunks & docs & out & _ & Heq).
    rewrite Heq. split; reflexivity.
  - apply (proj1 (summary_flow_no_retrieval _ _)).
  - apply (proj2 (summary_flow_no_retrieval _ _)).
  - rewrite Hsum. apply Forall_app_2.
    + eapply List.Forall_impl; [|exact Hc]. intros s ->. cbn. lia.
    + repeat constructor; cbn; lia.
Qed.

End AnalysisClaims.

(** ** utils/pdf_analysis.py: runs on the concrete library *)

Section AnalysisExamples.
Import Analysis Spec.

Import Demo.

(** Two retrievers built one after the other hold the models 0 and 1. *)
Lemma embedding_model_loaded_per_call_witness :
  exists calls1 calls2,
    appended Demo.start (World 1 (building sky 0)) calls1
    /\ appended (World 1 (building sky 0))
         (World 2 (building sky 0 ++ building question 1)) calls2
    /\ model_loads calls1 = [0%nat] /\ embedders calls1 = [0%nat]
    /\ model_loads calls2 = [1%nat] /\ embedders calls2 = [1%nat]
    /\ 1%nat = 1%nat.
Proof.
  exact (embedding_model_loaded_per_call Demo.lib
           sky None None None question None None None
           Demo.start (built sky 0) (World 1 (building sky 0))
           (built question 1)
           (World 2 (building sky 0 ++ building question 1))
           eq_refl eq_refl).
Defined.

(** C4, as stated, fails: the second retriever has loaded a model. *)
Lemma embedding_model_not_loaded_once : ~ loaded_once Demo.lib.
Proof.
  intros H.
  edestruct (H sky question Demo.start) as [Hloads _];
    [reflexivity | reflexivity | reflexivity |].
  discriminate Hloads.
Qed.

Lemma summarize_text_prompt_and_trim_witness :
  summarize_text Demo.lib sky None Demo.start =
    (Ok "- The sky is blue.",
     after Demo.start
       (map ok [Getenv "TOGETHER_API_KEY"; ChatInit llm400;
                Completion llm400 (instruction +:+ sky)]))
  /\ completions (map ok [Getenv "TOGETHER_API_KEY"; ChatInit llm400;
                          Completion llm400 (instruction +:+ sky)])
     = [(llm400, instruction +:+ sky)]
  /\ trimmed (content Demo.reply) "- The sky is blue.".
Proof.
  exact (summarize_text_prompt_and_trim Demo.lib sky None Demo.start Demo.reply
           eq_refl eq_refl).
Defined.

Lemma rag_qa_linear_pipeline_witness :
  rag_qa Demo.lib sky question None Demo.start =
    (Ok (VStr (content Demo.reply), VList [ {| page_content := sky |} ]),
     World 1
       (map ok [SplitterInit (splitter_of 800 100);
                SplitText (splitter_of 800 100) sky;
                EmbeddingsInit (MiniLM 0);
                EmbedDocuments (MiniLM 0) [sky]; IndexBuild [sky];
                AsRetriever 3;
                Getenv "TOGETHER_API_KEY"; ChatInit llm512;
                ChainInit "stuff" true;
                EmbedQuery (MiniLM 0) question; IndexSearch 3;
                Completion llm512
                  (stuff_prompt Demo.lib [ {| page_content := sky |} ] question)])).
Proof.
  apply (proj1 (rag_qa_linear_pipeline Demo.lib sky question None Demo.start)
           [sky] [tt] [sky] tt [ {| page_content := sky |} ] Demo.reply);
    reflexivity.
Defined.

(** C7, as stated, fails: the empty text reaches the hosted model and a
    summary comes back. *)
Lemma summarize_empty_text_not_guarded : ~ empty_text_guarded Demo.lib.
Proof.
  intros H. destruct (H None Demo.start) as (calls & Happ & Hnone & _).
  unfold appended in Happ. cbn in Happ. subst calls. discriminate Hnone.
Qed.

Lemma summarize_empty_text_passes_through_witness :
  summarize_text Demo.lib "" None Demo.start =
    (Ok "- The sky is blue.",
     after Demo.start
       (map ok [Getenv "TOGETHER_API_KEY"; ChatInit llm400;
                Completion llm400 instruction])).
Proof.
  exact (summarize_empty_text_passes_through Demo.lib None Demo.start Demo.reply
           eq_refl eq_refl).
Defined.

Lemma default_configuration_witness :
  exists qa_calls summary_calls,
    appended Demo.start (snd (rag_qa Demo.lib sky question None Demo.start))
      qa_calls
    /\ appended Demo.start (snd (summarize_text Demo.lib sky None Demo.start))
         summary_calls
    /\ splitters qa_calls = [(800, 100)]
    /\ breadths qa_calls = [3]
    /\ chat_settings qa_calls = [((2 # 10)%Q, 512)]
    /\ chat_settings summary_calls = [((2 # 10)%Q, 400)].
Proof.
  destruct (default_configuration Demo.lib sky question None Demo.start)
    as (_ & _ & qa & sm & Hqa & Hsm & Hs & _ & _ & Hok & Hsum & _).
  destruct (Hok _ eq_refl) as [Hb Hc].
  exists qa, sm. repeat split; assumption.
Defined.

End AnalysisExamples.

(** ** utils/pdf_processing.py *)

Section ProcessingRuns.
Import Processing PdfSpec.

Variable L : library.

(** The loop over the pages of pdfplumber, when every page answers. *)
Lemma plumber_loop pages : forall results w,
  Forall (fun p => failure (page_extract_tables L p) = None) pages ->
  for_each L pages
    (fun page results =>
       page_tables <- call (ExtractTables page) (page_extract_tables L page) ;;
       ret (results ++ map RowsTable (or_empty page_tables))%list)
    results w
  = (Ok (results ++ flat_map tables_of pages)%list,
     after w (map extracts pages)).
Proof.
  induction pages as [|p pages IH]; intros results w Hall.
  - cbn. now rewrite app_nil_r, after_nil.
  - apply Forall_cons_1 in Hall. destruct Hall as [Hp Hall].
    cbn [for_each]. unfold bind at 1. unfold bind at 1. rewrite call_run.
    unfold tables_of at 1. cbn [flat_map map].
    destruct (page_extract_tables L p) as [t|x]; [|discriminate Hp].
    cbn [ret failure]. rewrite IH by assumption.
    rewrite after_after, <- app_assoc. reflexivity.
Qed.

Lemma single_page (src : list (page L)) i p :
  nth_error src i = Some p -> firstn 1 (skipn i src) = [p].
Proof.
  revert i. induction src as [|q src IH]; intros [|i] H;
    try discriminate H.
  - injection H as ->. destruct src; reflexivity.
  - cbn in H. cbn [skipn]. now apply IH.
Qed.

(** The loop of [reorder_pages], when every index is a page of [src]. *)
Lemma insert_loop src order : forall dst w,
  Forall (fun i => 0 <= i < Z.of_nat (length src)) order ->
  exists sel,
    Forall2 (fun i p => nth_error src (Z.to_nat i) = Some p) order sel
    /\ for_each L order (fun i dst => insert_pdf L dst src i i) dst w
       = (Ok (dst ++ sel)%list, after w (map (inserts src) order)).
Proof.
  induction order as [|i order IH]; intros dst w Hall.
  - exists []. split; [constructor|]. cbn. now rewrite app_nil_r, after_nil.
  - apply Forall_cons_1 in Hall. destruct Hall as [Hi Hall].
    destruct (nth_error src (Z.to_nat i)) as [p|] eqn:Hp.
    2:{ apply nth_error_None in Hp. lia. }
    destruct (IH (dst ++ [p])%list (after w [inserts src i]) Hall)
      as (sel & Hsel & Hrun).
    exists (p :: sel). split; [constructor; assumption|].
    cbn [for_each]. unfold bind at 1. unfold insert_pdf at 1.
    rewrite call_run.
    replace ((0 <=? i) && (i <=? i) && (i <? Z.of_nat (length src)))%Z
      with true by (symmetry; rewrite !andb_true_iff; repeat split; lia).
    replace (Z.to_nat (i - i + 1)) with 1%nat by lia.
    rewrite (single_page _ _ _ Hp). cbn [failure].
    change (InsertPdf src i i, @None exn) with (inserts src i).
    rewrite Hrun, after_after, <- app_assoc.
    reflexivity.
Qed.

(** C9.  [extract_tables] asks Camelot first and returns its tables when
    there are some; when Camelot raises or finds none it asks pdfplumber and
    returns the tables of its pages, in page order. *)
Theorem extract_tables_structured_then_heuristic path w :
  (forall tables,
      camelot_read_pdf L path "all" = Ok tables -> tables <> [] ->
      extract_tables L path w
      = (Ok (map DataFrame tables), after w [structured L path]))
  /\ (structured_gave_up L path ->
      (forall x,
          pdfplumber_open L path = Raise x ->
          extract_tables L path w
          = (Raise x,
             after w [structured L path; failed (PdfplumberOpen path) x]))
      /\ (forall pages,
            pdfplumber_open L path = Ok pages ->
            Forall (fun p => failure (page_extract_tables L p) = None) pages ->
            extract_tables L path w
            = (Ok (flat_map tables_of pages),
               after w (structured L path :: ok (PdfplumberOpen path)
                        :: map extracts pages)))).
Proof.
  unfold structured. split.
  - intros tables Hc Hne.
    unfold extract_tables, try_except_Exception, bind. rewrite call_run, Hc.
    destruct tables as [|t tables]; [congruence|]. reflexivity.
  - intros Hgave.
    assert (Hfall : forall k : M (event L) (list (table L)),
      bind (try_except_Exception
              (tables <- call (CamelotReadPdf path "all")
                              (camelot_read_pdf L path "all") ;;
               if (0 <? n L tables)%Z
               then ret (Some (map DataFrame tables))
               else ret None)
              (ret None))
           (fun returned =>
              match returned with Some dfs => ret dfs | None => k end) w
      = k (after w [(CamelotReadPdf path "all",
                     failure (camelot_read_pdf L path "all"))])).
    { intros k. unfold try_except_Exception, bind. rewrite call_run.
      destruct Hgave as [-> | (cls & msg & ->)]; reflexivity. }
    split.
    + intros x Hopen. unfold extract_tables. rewrite Hfall.
      unfold bind. rewrite call_run, Hopen, after_after. reflexivity.
    + intros pages Hopen Hall. unfold extract_tables. rewrite Hfall.
      unfold bind at 1. rewrite call_run, Hopen.
      rewrite plumber_loop by assumption.
      rewrite !after_after. reflexivity.
Qed.

(** C10 (as amended).  [reorder_pages] builds a document with one page for
    each entry of [new_order], the j-th being page [new_order[j]] of the
    source; entries may repeat and pages may be left out, and nothing is
    validated.  That document is handed to [save]: the path is returned when
    [save] accepts it, and the exception of [save] is raised otherwise.  For
    an empty [new_order] the document handed to [save] has no page. *)
Theorem reorder_pages_selects_pages path new_order out w src :
  fitz_open L path = Ok src ->
  Forall (fun i => 0 <= i < Z.of_nat (length src)) new_order ->
  let output_path := default "reordered.pdf" out in
  exists dst,
    length dst = length new_order
    /\ (forall j i, nth_error new_order j = Some i ->
                    nth_error dst j = nth_error src (Z.to_nat i))
    /\ reorder_pages L path new_order out w
       = (match fitz_save L dst output_path with
          | Ok _ => Ok output_path
          | Raise x => Raise x
          end,
          after w (ok (FitzOpen path) :: ok FitzNew
                   :: map (inserts src) new_order
                   ++ [(Save dst output_path,
                        failure (fitz_save L dst output_path))]))
    /\ (new_order = [] -> dst = []).
Proof.
  intros Hopen Hall output_path.
  destruct (insert_loop src new_order []
              (after (after w [ok (FitzOpen path)]) [ok FitzNew]) Hall)
    as (dst & Hsel & Hrun).
  exists dst. split; [|split; [|split]]; cycle 3.
  - intros ->. now apply Forall2_nil_inv_l in Hsel.
  - symmetry. eapply Forall2_length; eassumption.
  - clear Hrun. induction Hsel as [|i p order sel Hp Hsel IH];
      intros [|j] k Hk; try discriminate Hk.
    + injection Hk as <-. now rewrite Hp.
    + cbn in Hk |- *. apply Forall_cons_1 in Hall. now apply IH.
  - unfold reorder_pages. fold output_path.
    unfold bind at 1. rewrite call_run, Hopen. cbn [failure].
    unfold bind at 1. rewrite call_run. cbn [failure].
    unfold bind at 1. fold (@ok (event L) (FitzOpen path)).
    fold (@ok (event L) FitzNew). rewrite Hrun. cbn [app].
    unfold bind. rewrite call_run.
    rewrite !after_after. cbn [app].
    destruct (fitz_save L dst output_path) as [[]|x]; reflexivity.
Qed.

End ProcessingRuns.

(** ** utils/pdf_processing.py: runs on the concrete libraries *)

Section ProcessingExamples.
Import Processing PdfSpec.

(** Camelot's tables for "tables.pdf"; pdfplumber's for "scan.pdf", on
    which Camelot raises. *)
Lemma extract_tables_structured_then_heuristic_witness :
  extract_tables DemoPdf.lib "tables.pdf" DemoPdf.start
  = (Ok [DataFrame (L:=DemoPdf.lib) "df1"; DataFrame (L:=DemoPdf.lib) "df2"],
     World 0 [ok (CamelotReadPdf "tables.pdf" "all")])
  /\ extract_tables DemoPdf.lib "scan.pdf" DemoPdf.start
     = (Ok [RowsTable (L:=DemoPdf.lib) [["a"; "b"]];
             RowsTable (L:=DemoPdf.lib) [["c"]]],
        World 0 [failed (CamelotReadPdf "scan.pdf" "all")
                   (Exception "NotImplementedError" "image-based");
                 ok (PdfplumberOpen "scan.pdf");
                 ok (ExtractTables (L:=DemoPdf.lib) 0%nat);
                 ok (ExtractTables (L:=DemoPdf.lib) 1%nat)]).
Proof.
  split.
  - apply (proj1 (extract_tables_structured_then_heuristic
                    DemoPdf.lib "tables.pdf" DemoPdf.start)
             ["df1"; "df2"]); [reflexivity | discriminate].
  - apply (proj2 (proj2 (extract_tables_structured_then_heuristic
                           DemoPdf.lib "scan.pdf" DemoPdf.start)
                    (or_intror (ex_intro _ _ (ex_intro _ _ eq_refl))))
             [0%nat; 1%nat]); [reflexivity | repeat constructor].
Defined.

(** Page 2 twice, page 1 left out. *)
Lemma reorder_pages_selects_pages_witness :
  exists dst,
    length dst = 3%nat
    /\ (forall j i, nth_error [2; 0; 2] j = Some i ->
                    nth_error dst j = nth_error (DemoPdf.pages) (Z.to_nat i))
    /\ reorder_pages DemoPdf.lib "in.pdf" [2; 0; 2] None DemoPdf.start
       = (match fitz_save DemoPdf.lib dst "reordered.pdf" with
          | Ok _ => Ok "reordered.pdf"
          | Raise x => Raise x
          end,
          after DemoPdf.start
            (ok (FitzOpen "in.pdf") :: ok FitzNew
             :: map (inserts DemoPdf.pages) [2; 0; 2]
             ++ [(Save dst "reordered.pdf",
                  failure (fitz_save DemoPdf.lib dst "reordered.pdf"))]))
    /\ ([2; 0; 2] = [] -> dst = []).
Proof.
  apply (reorder_pages_selects_pages DemoPdf.lib "in.pdf" [2; 0; 2] None
           DemoPdf.start DemoPdf.pages).
  - reflexivity.
  - repeat constructor; cbn; lia.
Defined.

(** C10, as stated, fails: for the empty list, which is a list of page
    numbers of any source, the document to save has no page, [save] refuses
    it and no output is produced. *)
Lemma reorder_pages_empty_order_not_saved : ~ always_reordered DemoSave.lib.
Proof.
  intros H.
  destruct (H "in.pdf" [] None DemoSave.start DemoPdf.pages eq_refl
              (List.Forall_nil _)) as (dst & w' & Hrun & _).
  discriminate Hrun.
Qed.

(** The run the statement fails on. *)
Example reorder_pages_empty_order_run :
  reorder_pages DemoSave.lib "in.pdf" [] None DemoSave.start
  = (Raise (Exception "ValueError" "cannot save with zero pages"),
     World 0 [ok (FitzOpen "in.pdf"); ok FitzNew;
              failed (Save (L:=DemoSave.lib) [] "reordered.pdf")
                (Exception "ValueError" "cannot save with zero pages")]).
Proof. reflexivity. Qed.

Example reorder_pages_run :
  reorder_pages DemoPdf.lib "in.pdf" [2; 0; 2] None DemoPdf.start
  = (Ok "reordered.pdf",
     World 0 [ok (FitzOpen "in.pdf"); ok FitzNew;
              inserts DemoPdf.pages 2; inserts DemoPdf.pages 0;
              inserts DemoPdf.pages 2;
              ok (Save (L:=DemoPdf.lib) ["p2"; "p0"; "p2"] "reordered.pdf")]).
Proof. reflexivity. Qed.

End ProcessingExamples.

(** ** Text and numbers *)

Section StrFacts.
Import PyStr App.

Lemma decimal_is_digit c : is_decimal c = true -> isdigit_char c = true.
Proof. unfold isdigit_char. now intros ->. Qed.

Lemma digit_not_space c : isdigit_char c = true -> isspace c = false.
Proof.
  destruct c as [[] [] [] [] [] [] [] []]; cbn; intros H;
    try reflexivity; discriminate H.
Qed.

Lemma digit_not_special c :
  isdigit_char c = true ->
  Ascii.eqb c "+" = false /\ Ascii.eqb c "-" = false
  /\ Ascii.eqb c "_" = false /\ Ascii.eqb c "," = false.
Proof.
  destruct c as [[] [] [] [] [] [] [] []]; cbn; intros H;
    try discriminate H; repeat split.
Qed.

Lemma space_not_comma c : isspace c = true -> Ascii.eqb c "," = false.
Proof.
  destruct c as [[] [] [] [] [] [] [] []]; cbn; intros H;
    try reflexivity; discriminate H.
Qed.

Lemma every_app p (a b : string) :
  every p (a +:+ b) = every p a && every p b.
Proof.
  induction a as [|c a IH]; [reflexivity|].
  rewrite append_cons. cbn [every]. now rewrite IH, andb_assoc.
Qed.

Lemma every_impl (p q : ascii -> bool) s :
  (forall c, p c = true -> q c = true) -> every p s = true -> every q s = true.
Proof.
  intros Hpq. induction s as [|c s IH]; [reflexivity|]. cbn [every].
  rewrite !andb_true_iff. intros [Hc Hs]. auto.
Qed.

Lemma all_space_every s : all_space s = every isspace s.
Proof. induction s as [|c s IH]; [reflexivity|]. cbn. now rewrite IH. Qed.

Lemma append_empty_r (s : string) : s +:+ "" = s.
Proof. induction s as [|c s IH]; [reflexivity|]. now rewrite append_cons, IH. Qed.

(** *** [strip] *)

Lemma lstrip_spaces l s : all_space l = true -> lstrip (l +:+ s) = lstrip s.
Proof.
  induction l as [|c l IH]; [reflexivity|]. cbn [all_space].
  rewrite andb_true_iff. intros [Hc Hl]. rewrite append_cons. cbn [lstrip].
  rewrite Hc. auto.
Qed.

Lemma lstrip_all_space r : all_space r = true -> lstrip r = "".
Proof.
  intros H. rewrite <- (append_empty_r r). now rewrite lstrip_spaces.
Qed.

Lemma lstrip_started s : starts_with_space s = false -> lstrip s = s.
Proof. destruct s as [|c s]; [reflexivity|]. cbn. now intros ->. Qed.

Lemma rstrip_all_space r : all_space r = true -> rstrip r = "".
Proof.
  induction r as [|c r IH]; [reflexivity|]. cbn [all_space].
  rewrite andb_true_iff. intros [Hc Hr]. cbn [rstrip]. now rewrite IH, Hc.
Qed.

Lemma rstrip_spaces t r :
  all_space r = true -> ends_with_space t = false -> rstrip (t +:+ r) = t.
Proof.
  intros Hr. induction t as [|c t IH]; intros He.
  - now apply rstrip_all_space.
  - rewrite append_cons. cbn [rstrip]. destruct t as [|d t].
    + rewrite append_nil, rstrip_all_space by assumption.
      cbn in He. now rewrite He.
    + rewrite IH by exact He. reflexivity.
Qed.

(** [strip] gives back a text that neither starts nor ends with whitespace
    from any padding with whitespace. *)
Lemma strip_exact l t r :
  all_space l = true -> all_space r = true ->
  starts_with_space t = false -> ends_with_space t = false ->
  strip (l +:+ t +:+ r) = t.
Proof.
  intros Hl Hr Hs He. unfold strip. rewrite lstrip_spaces by assumption.
  destruct t as [|c t].
  - rewrite append_nil, lstrip_all_space by assumption. reflexivity.
  - rewrite lstrip_started by (rewrite append_cons; exact Hs).
    now apply rstrip_spaces.
Qed.

Lemma all_space_app a b :
  all_space a = true -> all_space b = true -> all_space (a +:+ b) = true.
Proof.
  rewrite !all_space_every, every_app. now intros -> ->.
Qed.

Lemma strip_padded l s r :
  all_space l = true -> all_space r = true ->
  strip (l +:+ s +:+ r) = strip s.
Proof.
  intros Hl Hr.
  destruct (strip_trimmed s) as (l' & r' & Hs & Hl' & Hr' & Hst & Hen).
  rewrite Hs at 1.
  replace (l +:+ (l' +:+ strip s +:+ r') +:+ r)
    with ((l +:+ l') +:+ strip s +:+ (r' +:+ r))
    by (rewrite !append_assoc; reflexivity).
  apply strip_exact; auto using all_space_app.
Qed.

Lemma strip_strip s : strip (strip s) = strip s.
Proof.
  destruct (strip_trimmed s) as (l' & r' & _ & _ & _ & Hst & Hen).
  rewrite <- (append_empty_r (strip s)) at 1.
  rewrite <- (append_nil (strip s +:+ "")). now apply strip_exact.
Qed.

Lemma ends_with_space_every s :
  s <> "" -> every (fun c => negb (isspace c)) s = true ->
  ends_with_space s = false.
Proof.
  induction s as [|c s IH]; [congruence|]. intros _. cbn [every].
  rewrite andb_true_iff. intros [Hc Hs]. destruct s as [|d s].
  - cbn. now apply negb_true_iff.
  - apply IH; [discriminate | exact Hs].
Qed.

(** A text of digits is its own [strip]. *)
Lemma strip_digits s : isdigit s = true -> strip s = s.
Proof.
  intros H. destruct s as [|c s]; [discriminate H|].
  assert (Hns : every (fun c => negb (isspace c)) (String c s) = true).
  { eapply every_impl; [|exact H]. intros d Hd.
    now rewrite digit_not_space. }
  rewrite <- (append_empty_r (String c s)) at 1.
  rewrite <- (append_nil (String c s +:+ "")).
  apply strip_exact; try reflexivity.
  - cbn in Hns |- *. apply andb_true_iff in Hns. now apply negb_true_iff.
  - now apply ends_with_space_every.
Qed.

(** *** [split] and [join] *)

Lemma split_not_nil sep s : split sep s <> [].
Proof.
  destruct s as [|c s]; cbn; [discriminate|].
  destruct (Ascii.eqb c sep); [discriminate|].
  destruct (split sep s); discriminate.
Qed.

Lemma split_field f rest :
  no_comma f = true -> split "," (f +:+ "," +:+ rest) = f :: split "," rest.
Proof.
  induction f as [|c f IH]; intros H.
  - reflexivity.
  - cbn in H. apply andb_true_iff in H. destruct H as [Hc Hf].
    rewrite append_cons. cbn [split].
    apply negb_true_iff in Hc. rewrite Hc, IH by exact Hf. reflexivity.
Qed.

Lemma split_last f : no_comma f = true -> split "," f = [f].
Proof.
  induction f as [|c f IH]; intros H; [reflexivity|].
  cbn in H. apply andb_true_iff in H. destruct H as [Hc Hf].
  cbn [split]. apply negb_true_iff in Hc. rewrite Hc, IH by exact Hf.
  reflexivity.
Qed.

Lemma split_join fields :
  fields <> [] -> Forall (fun f => no_comma f = true) fields ->
  split "," (join "," fields) = fields.
Proof.
  induction fields as [|f fields IH]; [congruence|]. intros _ Hall.
  apply Forall_cons_1 in Hall. destruct Hall as [Hf Hall].
  destruct fields as [|g fields].
  - cbn. now apply split_last.
  - change (join "," (f :: g :: fields))
      with (f +:+ "," +:+ join "," (g :: fields)).
    rewrite split_field by exact Hf. rewrite IH; [reflexivity|discriminate|].
    exact Hall.
Qed.

End StrFacts.

(** ** main.py: reading a list of page numbers *)

Section PageNumbers.
Import PyStr App.

Lemma digit_not_int_space c : isdigit_char c = true -> int_space c = false.
Proof.
  destruct c as [[] [] [] [] [] [] [] []]; cbn; intros H;
    try reflexivity; discriminate H.
Qed.

Lemma int_rstrip_no_space s :
  every (fun c => negb (int_space c)) s = true -> int_rstrip s = s.
Proof.
  induction s as [|c s IH]; [reflexivity|]. cbn [every int_rstrip].
  rewrite andb_true_iff, negb_true_iff. intros [Hc Hs].
  rewrite (IH Hs), Hc. now destruct s.
Qed.

(** [int] finds no whitespace to skip around a text of digits. *)
Lemma int_strip_digits s : isdigit s = true -> int_rstrip (int_lstrip s) = s.
Proof.
  intros H. destruct s as [|c s]; [discriminate H|].
  assert (Hns : every (fun c => negb (int_space c)) (String c s) = true).
  { eapply every_impl; [|exact H]. intros d Hd.
    now rewrite digit_not_int_space. }
  assert (Hl : int_lstrip (String c s) = String c s).
  { cbn in Hns |- *. apply andb_true_iff in Hns. destruct Hns as [Hc _].
    apply negb_true_iff in Hc. now rewrite Hc. }
  rewrite Hl. now apply int_rstrip_no_space.
Qed.

Lemma sign_of_digits t :
  isdigit t = true -> sign_and_body t = (false, t).
Proof.
  destruct t as [|c t]; [discriminate|]. cbn [isdigit every].
  rewrite andb_true_iff. intros [Hc _].
  destruct c as [[] [] [] [] [] [] [] []]; try reflexivity; discriminate Hc.
Qed.

Lemma literal_digits_decimal s : forall b,
  every is_decimal s = true -> s <> "" \/ b = true ->
  literal_digits b s = Some s.
Proof.
  induction s as [|c s IH]; intros b Hall Hne.
  - destruct Hne as [Hne | ->]; [congruence | reflexivity].
  - cbn in Hall. apply andb_true_iff in Hall. destruct Hall as [Hc Hs].
    cbn [literal_digits]. rewrite Hc, IH by auto. reflexivity.
Qed.

Lemma literal_digits_other s : forall b,
  every isdigit_char s = true -> every is_decimal s = false ->
  literal_digits b s = None.
Proof.
  induction s as [|c s IH]; intros b Hall Hnot; [discriminate Hnot|].
  cbn in Hall, Hnot. apply andb_true_iff in Hall. destruct Hall as [Hc Hs].
  cbn [literal_digits]. destruct (is_decimal c) eqn:Hd.
  - rewrite IH by auto. reflexivity.
  - destruct (digit_not_special c Hc) as (_ & _ & -> & _). reflexivity.
Qed.

Lemma literal_digits_subset s : forall b ds,
  literal_digits b s = Some ds -> every is_decimal ds = true.
Proof.
  induction s as [|c s IH]; intros b ds; cbn [literal_digits].
  - destruct b; [|discriminate]. now intros [= <-].
  - destruct (is_decimal c) eqn:Hd.
    + destruct (literal_digits true s) as [ds'|] eqn:Hs; [|discriminate].
      intros [= <-]. cbn. rewrite Hd. eauto.
    + destruct (Ascii.eqb c "_"); [|discriminate].
      destruct b; [|discriminate]. destruct s; [discriminate|]. eauto.
Qed.

Lemma of_uint_nonneg d : 0 <= Z.of_uint d.
Proof. unfold Z.of_uint. apply N2Z.is_nonneg. Qed.

Lemma uint_digits d : every is_decimal (NilEmpty.string_of_uint d) = true.
Proof. induction d; cbn; auto. Qed.

(** [str] of a number that is not negative: its decimal digits. *)
Lemma str_nonneg i :
  0 <= i ->
  exists d, str i = NilEmpty.string_of_uint d /\ d <> Decimal.Nil /\ Z.of_uint d = i.
Proof.
  intros Hi. unfold str. destruct i as [|p|p]; [| |lia].
  - exists (Decimal.D0 Decimal.Nil). repeat split. discriminate.
  - exists (Pos.to_uint p). cbn [Z.to_int NilZero.string_of_int].
    assert (Hn := DecimalPos.Unsigned.to_uint_nonnil p).
    repeat split; [|exact Hn|].
    + unfold NilZero.string_of_uint. destruct (Pos.to_uint p); congruence.
    + unfold Z.of_uint. now rewrite DecimalPos.Unsigned.of_to.
Qed.

Lemma str_isdigit i : 0 <= i -> isdigit (str i) = true.
Proof.
  intros Hi. destruct (str_nonneg i Hi) as (d & -> & Hd & _).
  assert (H := uint_digits d).
  apply (every_impl _ _ _ decimal_is_digit) in H.
  destruct d; try congruence; exact H.
Qed.

Lemma str_no_comma i : 0 <= i -> no_comma (str i) = true.
Proof.
  intros Hi. assert (H := str_isdigit i Hi).
  destruct (str i) as [|c s] eqn:E; [discriminate|].
  eapply every_impl; [|exact H]. intros d Hd.
  destruct (digit_not_special d Hd) as (_ & _ & _ & ->). reflexivity.
Qed.

(** [int(str(i))] gives [i] back. *)
Lemma int_str m i : 0 <= i -> within_limit m i -> int m (str i) = Ok i.
Proof.
  intros Hi Hm. unfold int.
  rewrite int_strip_digits, sign_of_digits by now apply str_isdigit.
  destruct (str_nonneg i Hi) as (d & Hs & Hd & Hv).
  assert (Hlim : ((0 <? m) && (m <? N.of_nat (String.length (str i))))%N = false).
  { destruct Hm as [-> | Hm]; [reflexivity|].
    apply andb_false_iff. right. now apply N.ltb_ge. }
  rewrite literal_digits_decimal.
  - rewrite Hlim, Hs, NilEmpty.usu, Hv. reflexivity.
  - rewrite Hs. apply uint_digits.
  - left. rewrite Hs. destruct d; try congruence; discriminate.
Qed.

Lemma int_of_digits_nonneg m t i :
  isdigit t = true -> int m t = Ok i -> 0 <= i.
Proof.
  intros Ht. unfold int.
  rewrite int_strip_digits, sign_of_digits by exact Ht.
  destruct (literal_digits false t); [|discriminate].
  destruct (_ && _)%bool; [discriminate|].
  destruct (NilEmpty.uint_of_string s); [|discriminate].
  intros [= <-]. apply of_uint_nonneg.
Qed.

Lemma int_superscript m t :
  isdigit t = true -> every is_decimal t = false ->
  int m t = Raise (Exception "ValueError" t).
Proof.
  intros Ht Hn. unfold int.
  rewrite int_strip_digits, sign_of_digits by exact Ht.
  rewrite literal_digits_other; [reflexivity| |exact Hn].
  destruct t; [discriminate|exact Ht].
Qed.

Lemma padded_no_comma m e : well_padded m e -> no_comma (padded e) = true.
Proof.
  destruct e as [[l i] r]. intros (Hl & Hr & Hi & _). unfold padded, no_comma.
  rewrite !every_app. rewrite all_space_every in Hl, Hr.
  assert (Hsp : forall s, every isspace s = true ->
                every (fun c => negb (Ascii.eqb c ",")) s = true).
  { intros s. apply every_impl. intros c Hc. now rewrite space_not_comma. }
  rewrite (Hsp l Hl), (Hsp r Hr). fold (no_comma (str i)).
  now rewrite str_no_comma.
Qed.

Lemma strip_padded_number m e :
  well_padded m e -> strip (padded e) = str (snd (fst e)).
Proof.
  destruct e as [[l i] r]. intros (Hl & Hr & Hi & _). unfold padded. cbn.
  rewrite strip_padded by assumption. apply strip_digits.
  now apply str_isdigit.
Qed.

Lemma digit_fields_padded m entries :
  Forall (well_padded m) entries ->
  digit_fields m (map padded entries) = Ok (map (fun e => snd (fst e)) entries).
Proof.
  induction entries as [|e entries IH]; intros Hall; [reflexivity|].
  apply Forall_cons_1 in Hall. destruct Hall as [He Hall].
  cbn [map digit_fields]. rewrite (strip_padded_number m e He).
  destruct e as [[l i] r]. destruct He as (_ & _ & Hi & Hm). cbn [fst snd].
  rewrite str_isdigit, int_str, IH by assumption. reflexivity.
Qed.

Lemma digit_fields_skips m before x after :
  isdigit (strip x) = false ->
  digit_fields m (before ++ x :: after)%list = digit_fields m (before ++ after)%list.
Proof.
  intros Hx. induction before as [|b before IH]; cbn [app digit_fields].
  - now rewrite Hx.
  - now rewrite IH.
Qed.

Lemma page_numbers_typed m entries :
  Forall (well_padded m) entries ->
  page_numbers m (join "," (map padded entries))
  = Ok (map (fun e => snd (fst e)) entries).
Proof.
  intros Hall. unfold page_numbers. destruct entries as [|e entries].
  - reflexivity.
  - rewrite split_join.
    + now apply digit_fields_padded.
    + discriminate.
    + apply List.Forall_map. eapply List.Forall_impl; [|exact Hall].
      intros e'. apply padded_no_comma.
Qed.

(** X1.  The numbers read from the typed text are never negative: a field
    with a sign does not pass [isdigit]. *)
Theorem page_numbers_nonnegative m text l :
  page_numbers m text = Ok l -> Forall (fun i => 0 <= i) l.
Proof.
  unfold page_numbers. generalize (split "," text). intros fields.
  revert l. induction fields as [|x fields IH]; intros l; cbn [digit_fields].
  - intros [= <-]. constructor.
  - destruct (isdigit (strip x)) eqn:Hx; [|apply IH].
    destruct (int m (strip x)) as [i|e] eqn:Hi; [|discriminate].
    destruct (digit_fields m fields) as [l'|e]; [|discriminate].
    intros [= <-]. constructor; [|now apply IH].
    eapply int_of_digits_nonneg; eassumption.
Qed.

(** X2.  A list of page numbers written in decimal and separated by commas,
    with any whitespace around the numbers, is read back as that list. *)
Theorem page_numbers_round_trip m entries :
  Forall (well_padded m) entries ->
  page_numbers m (join "," (map padded entries))
  = Ok (map (fun e => snd (fst e)) entries).
Proof.
  intros Hall. unfold page_numbers. destruct entries as [|e entries].
  - reflexivity.
  - rewrite split_join.
    + now apply digit_fields_padded.
    + discriminate.
    + apply List.Forall_map. eapply List.Forall_impl; [|exact Hall].
      intros e'. apply padded_no_comma.
Qed.

(** X3.  A field that is not made of digits only, such as a word, a negative
    number or nothing at all, is left out without any error. *)
Theorem page_numbers_skips_other_fields m before x after :
  Forall (fun f => no_comma f = true) (before ++ x :: after) ->
  isdigit (strip x) = false ->
  page_numbers m (join "," (before ++ x :: after))
  = page_numbers m (join "," (before ++ after)).
Proof.
  intros Hall Hx. unfold page_numbers.
  rewrite split_join; [|now destruct before|exact Hall].
  rewrite digit_fields_skips by exact Hx.
  destruct (before ++ after)%list as [|f fields] eqn:E.
  - reflexivity.
  - rewrite split_join; [reflexivity|discriminate|].
    rewrite <- E. apply Forall_app in Hall. destruct Hall as [Hb Ha].
    apply Forall_cons_1 in Ha. apply Forall_app. tauto.
Qed.

(** X4.  [isdigit] does not protect [int]: a field of digits that are not
    all decimal digits, such as a superscript two, raises [ValueError]. *)
Theorem page_numbers_superscript_digit m x rest :
  no_comma x = true ->
  isdigit (strip x) = true -> every is_decimal (strip x) = false ->
  page_numbers m x = Raise (Exception "ValueError" (strip x))
  /\ page_numbers m (x +:+ "," +:+ rest)
     = Raise (Exception "ValueError" (strip x)).
Proof.
  intros Hc Hd Hn. unfold page_numbers.
  rewrite split_last, split_field by exact Hc. cbn [digit_fields].
  now rewrite Hd, int_superscript.
Qed.

End PageNumbers.

(** ** Loops *)

Section IterFacts.
Import PyIter.

Lemma range_empty a b : b <= a -> range a b = [].
Proof. intros H. unfold range. now replace (Z.to_nat (b - a)) with 0%nat by lia. Qed.

Lemma range_cons a b : a < b -> range a b = a :: range (a + 1) b.
Proof.
  intros H. unfold range.
  replace (Z.to_nat (b - a)) with (S (Z.to_nat (b - (a + 1)))) by lia.
  cbn [seq map]. f_equal; [lia|].
  rewrite <- seq_shift, List.map_map. apply List.map_ext. intros k. lia.
Qed.

Lemma range_length a b : length (range a b) = Z.to_nat (b - a).
Proof. unfold range. now rewrite length_map, length_seq. Qed.

Lemma range_NoDup a b : NoDup (range a b).
Proof.
  unfold range. apply NoDup_fmap_2; [|apply NoDup_seq].
  intros x y. lia.
Qed.

Lemma skipn_nth {A} (l : list A) k p :
  nth_error l k = Some p -> skipn k l = p :: skipn (S k) l.
Proof.
  revert k. induction l as [|q l IH]; intros [|k] H; try discriminate H.
  - now injection H as ->.
  - cbn in H. cbn [skipn]. now apply IH.
Qed.

Lemma nth_error_in_range {A} (l : list A) k :
  (k < length l)%nat -> exists p, nth_error l k = Some p.
Proof.
  intros H. destruct (nth_error l k) eqn:E; [eauto|].
  apply nth_error_None in E. lia.
Qed.

End IterFacts.

(** ** utils/pdf_processing.py: the PyPDF2 tools *)

Section PdfToolsFacts.
Import PyStr PyIter PdfTools.

Variable L : library.

Lemma getitem_in_range (pages : list (page L)) i p :
  0 <= i -> nth_error pages (Z.to_nat i) = Some p -> getitem L pages i = Ok p.
Proof.
  intros Hi Hp. unfold getitem.
  replace (0 <=? i)%Z with true by (symmetry; now apply Z.leb_le).
  now rewrite Hp.
Qed.

Lemma pages_between_empty (pages : list (page L)) a b :
  b < a -> pages_between pages a b = [].
Proof.
  intros H. unfold pages_between.
  now replace (Z.to_nat (b - a + 1)) with 0%nat by lia.
Qed.

Lemma pages_between_cons (pages : list (page L)) a b p :
  1 <= a <= b -> nth_error pages (Z.to_nat (a - 1)) = Some p ->
  pages_between pages a b = p :: pages_between pages (a + 1) b.
Proof.
  intros H Hp. unfold pages_between.
  replace (Z.to_nat (b - a + 1)) with (S (Z.to_nat (b - (a + 1) + 1))) by lia.
  rewrite (skipn_nth _ _ _ Hp). cbn [firstn].
  now replace (Z.to_nat (a + 1 - 1)) with (S (Z.to_nat (a - 1))) by lia.
Qed.

Lemma page_in_document (pages : list (page L)) a b :
  1 <= a <= b -> b <= Z.of_nat (length pages) ->
  exists p, nth_error pages (Z.to_nat (a - 1)) = Some p.
Proof. intros Ha Hb. apply nth_error_in_range. lia. Qed.

Lemma pages_between_length (pages : list (page L)) a b :
  1 <= a -> b <= Z.of_nat (length pages) ->
  length (pages_between pages a b) = Z.to_nat (b - a + 1).
Proof.
  intros Ha Hb. unfold pages_between.
  rewrite length_firstn, length_skipn. lia.
Qed.

(** The loop of [extract_page_range] over pages of the document. *)
Lemma select_loop (pages : list (page L)) b : forall n a writer w,
  n = Z.to_nat (b + 1 - a) -> 1 <= a -> b <= Z.of_nat (length pages) ->
  for_each (range a (b + 1))
    (fun i writer =>
       page <- lift (getitem L pages (i - 1)) ;;
       ret (writer ++ [page])%list)
    writer w
  = (Ok (writer ++ pages_between pages a b)%list, w : world (event L)).
Proof.
  induction n as [|n IH]; intros a writer w Hn Ha Hb.
  - rewrite range_empty, pages_between_empty by lia. cbn.
    now rewrite app_nil_r.
  - rewrite range_cons by lia. cbn [for_each].
    destruct (page_in_document pages a b) as [p Hp]; [lia|lia|].
    unfold bind at 1. unfold bind at 1, lift at 1.
    rewrite (getitem_in_range _ _ p) by (try lia; exact Hp).
    cbn [ret]. rewrite IH by lia.
    rewrite (pages_between_cons _ a b p) by (try lia; exact Hp).
    now rewrite <- app_assoc.
Qed.

(** The loop of [split_pdf_pages], when every page can be written. *)
Lemma split_loop (pages : list (page L)) b : forall n a zipf w,
  n = Z.to_nat (b + 1 - a) -> 1 <= a -> b <= Z.of_nat (length pages) ->
  Forall (fun p => failure (write_pdf L [p]) = None) (pages_between pages a b) ->
  exists files,
    Forall2 (fun p f => write_pdf L [p] = Ok f) (pages_between pages a b) files
    /\ for_each (range a (b + 1))
         (fun i zipf =>
            page <- lift (getitem L pages (i - 1)) ;;
            pdf_bytes <- write L [page] ;;
            ret (zipf ++ [("page_" +:+ str i +:+ ".pdf", pdf_bytes)])%list)
         zipf w
       = (Ok (zipf ++ combine (map entry_name (range a (b + 1))) files)%list,
          after w (map (fun p => ok (WritePdf [p])) (pages_between pages a b))).
Proof.
  induction n as [|n IH]; intros a zipf w Hn Ha Hb Hall.
  - exists []. rewrite range_empty, pages_between_empty by lia. cbn.
    split; [constructor|]. now rewrite app_nil_r, after_nil.
  - destruct (page_in_document pages a b) as [p Hp]; [lia|lia|].
    rewrite (pages_between_cons _ a b p) in Hall |- * by (try lia; exact Hp).
    apply Forall_cons_1 in Hall. destruct Hall as [Hw Hall].
    destruct (write_pdf L [p]) as [f|x] eqn:Hf; [|discriminate Hw].
    destruct (IH (a + 1) (zipf ++ [(entry_name a, f)])%list
                (after w [ok (WritePdf [p])])) as (files & Hfiles & Hrun);
      [lia|lia|lia|exact Hall|].
    exists (f :: files). split; [constructor; assumption|].
    rewrite range_cons by lia. cbn [for_each].
    unfold bind at 1. unfold bind at 1, lift at 1.
    rewrite (getitem_in_range _ _ p) by (try lia; exact Hp).
    unfold bind at 1, write at 1. rewrite call_run, Hf. cbn [failure ret].
    fold (entry_name a). change (WritePdf [p], @None exn) with (ok (WritePdf [p])).
    rewrite Hrun, after_after, <- app_assoc. reflexivity.
Qed.

Lemma append_length (a b : string) :
  String.length (a +:+ b) = (String.length a + String.length b)%nat.
Proof.
  induction a as [|c a IH]; [reflexivity|].
  rewrite append_cons. cbn [String.length]. now rewrite IH.
Qed.

Lemma append_cancel_r (a b s : string) : a +:+ s = b +:+ s -> a = b.
Proof.
  revert b. induction a as [|c a IH]; intros [|d b] H.
  - reflexivity.
  - apply (f_equal String.length) in H.
    rewrite append_nil, append_cons in H. cbn in H.
    rewrite append_length in H. lia.
  - apply (f_equal String.length) in H.
    rewrite append_nil, append_cons in H. cbn in H.
    rewrite append_length in H. lia.
  - rewrite !append_cons in H. injection H as -> H. f_equal. now apply IH.
Qed.

Lemma str_inj i j : str i = str j -> i = j.
Proof.
  unfold str. intros H. apply DecimalZ.to_int_inj.
  assert (Hnn : forall k, Z.to_int k <> Decimal.Pos Decimal.Nil
                          /\ Z.to_int k <> Decimal.Neg Decimal.Nil).
  { intros [|p|p]; cbn; split; try discriminate;
      intros [= E]; now apply DecimalPos.Unsigned.to_uint_nonnil in E. }
  destruct (Hnn i) as [Hi1 Hi2], (Hnn j) as [Hj1 Hj2].
  assert (E : Some (Z.to_int i) = Some (Z.to_int j)).
  { rewrite <- (NilZero.isi (Z.to_int i)), <- (NilZero.isi (Z.to_int j))
      by assumption. now rewrite H. }
  now injection E.
Qed.

Lemma entry_name_inj i j : entry_name i = entry_name j -> i = j.
Proof.
  unfold entry_name. intros H.
  apply str_inj, (append_cancel_r _ _ ".pdf").
  change ("page_" +:+ str i +:+ ".pdf")
    with (String "p" (String "a" (String "g" (String "e" (String "_"
            (str i +:+ ".pdf")))))) in H.
  change ("page_" +:+ str j +:+ ".pdf")
    with (String "p" (String "a" (String "g" (String "e" (String "_"
            (str j +:+ ".pdf")))))) in H.
  now injection H.
Qed.

(** The loop of [merge_pdfs], when every file can be read. *)
Lemma merge_loop sources : forall reads writer w,
  Forall2 (fun s pages =>
             match s with
             | Upload f => read_upload L f
             | Path p => read_path L p
             end = Ok pages) sources reads ->
  for_each sources
    (fun f writer => reader <- PdfReader L f ;; ret (writer ++ reader)%list)
    writer w
  = (Ok (writer ++ concat reads)%list,
     after w (map (fun s => ok (ReadPdf s)) sources)).
Proof.
  induction sources as [|s sources IH]; intros reads writer w Hall.
  - apply Forall2_nil_inv_l in Hall. subst reads. cbn.
    now rewrite app_nil_r, after_nil.
  - apply Forall2_cons_inv_l in Hall.
    destruct Hall as (pages & reads' & Hs & Hall & ->).
    cbn [for_each]. unfold bind at 1. unfold bind at 1, PdfReader at 1.
    rewrite call_run, Hs. cbn [failure ret concat map].
    change (ReadPdf s, @None exn) with (ok (ReadPdf s)).
    rewrite (IH reads') by exact Hall.
    now rewrite after_after, <- app_assoc.
Qed.

(** The loop of [remove_first_last_pages] past the first page. *)
Lemma tail_loop (pages : list (page L)) remove_first remove_last :
  forall n k writer w,
  n = (length pages - k)%nat -> (1 <= k <= length pages)%nat ->
  for_each (range (Z.of_nat k) (Z.of_nat (length pages)))
    (fun i writer =>
       if (remove_first && (i =? 0)%Z)
          || (remove_last && (i =? Z.of_nat (length pages) - 1)%Z)
       then ret writer
       else page <- lift (getitem L pages i) ;;
            ret (writer ++ [page])%list)
    writer w
  = (Ok (writer ++ without_last remove_last (skipn k pages))%list,
     w : world (event L)).
Proof.
  induction n as [|n IH]; intros k writer w Hn Hk.
  - rewrite range_empty by lia. rewrite skipn_all2 by lia.
    cbn. unfold without_last. destruct remove_last; now rewrite app_nil_r.
  - rewrite range_cons by lia. cbn [for_each].
    destruct (nth_error_in_range pages k) as [p Hp]; [lia|].
    rewrite (skipn_nth _ _ _ Hp).
    replace (Z.of_nat k =? 0)%Z with false by (symmetry; apply Z.eqb_neq; lia).
    rewrite andb_false_r. cbn [orb].
    replace (Z.of_nat k + 1) with (Z.of_nat (S k)) by lia.
    destruct (Nat.eq_dec (S k) (length pages)) as [Hlast|Hmore].
    + replace (Z.of_nat k =? Z.of_nat (length pages) - 1)%Z with true
        by (symmetry; apply Z.eqb_eq; lia).
      rewrite andb_true_r. rewrite (skipn_all2 pages (n:=S k)) by lia.
      rewrite range_empty by lia.
      destruct remove_last; cbn.
      * now rewrite app_nil_r.
      * unfold bind, lift. rewrite (getitem_in_range _ _ p) by (try lia;
          now rewrite Nat2Z.id). reflexivity.
    + replace (Z.of_nat k =? Z.of_nat (length pages) - 1)%Z with false
        by (symmetry; apply Z.eqb_neq; lia).
      rewrite andb_false_r. unfold bind at 1. unfold bind at 1, lift at 1.
      rewrite (getitem_in_range _ _ p) by (try lia; now rewrite Nat2Z.id).
      cbn [ret]. rewrite IH by lia. rewrite <- app_assoc. cbn [app].
      destruct (nth_error_in_range pages (S k)) as [q Hq]; [lia|].
      rewrite (skipn_nth _ _ _ Hq). unfold without_last.
      destruct remove_last; reflexivity.
Qed.

End PdfToolsFacts.

Section PdfToolsProperties.
Import PyStr PyIter PdfTools.

Variable L : library.

Lemma nth_error_pages_between (pages : list (page L)) a b k :
  (k < Z.to_nat (b - a + 1))%nat ->
  nth_error (pages_between pages a b) k
  = nth_error pages (Z.to_nat (a - 1) + k).
Proof.
  intros Hk. unfold pages_between.
  rewrite nth_error_firstn.
  replace (k <? Z.to_nat (b - a + 1))%nat with true
    by (symmetry; now apply Nat.ltb_lt).
  now rewrite nth_error_skipn.
Qed.

(** X5.  [extract_page_range] writes the pages [start_page..end_page] of
    the document, counted from 1, in their order. *)
Theorem extract_page_range_pages path a b w pages :
  read_path L path = Ok pages ->
  1 <= a -> b <= Z.of_nat (length pages) ->
  let selected := pages_between pages a b in
  extract_page_range L path a b w
  = (write_pdf L selected, after w [ok (ReadPdf (Path path)); written selected])
  /\ length selected = Z.to_nat (b - a + 1)
  /\ (forall k, (k < length selected)%nat ->
        nth_error selected k = nth_error pages (Z.to_nat (a - 1) + k)).
Proof.
  intros Hread Ha Hb selected. subst selected. split; [|split].
  - unfold extract_page_range. unfold bind at 1, PdfReader at 1.
    rewrite call_run, Hread. cbn [failure]. unfold bind at 1.
    rewrite (select_loop L pages b _ a) by (try reflexivity; lia).
    cbn [app]. unfold write. rewrite call_run, after_after. reflexivity.
  - now apply pages_between_length.
  - intros k Hk. rewrite pages_between_length in Hk by assumption.
    now apply nth_error_pages_between.
Qed.

(** X6.  With [end_page] below [start_page] no page is looked up, whatever
    the two numbers are: [extract_page_range] writes a PDF without pages and
    [split_pdf_pages] returns an empty ZIP. *)
Theorem empty_page_range path a b w pages :
  read_path L path = Ok pages ->
  b < a ->
  extract_page_range L path a b w
  = (write_pdf L [], after w [ok (ReadPdf (Path path)); written []])
  /\ split_pdf_pages L path a b w
     = (Ok [], after w [ok (ReadPdf (Path path))]).
Proof.
  intros Hread Hab. split.
  - unfold extract_page_range. unfold bind at 1, PdfReader at 1.
    rewrite call_run, Hread. cbn [failure]. rewrite range_empty by lia.
    cbn [for_each]. unfold bind, ret, write. rewrite call_run, after_after.
    reflexivity.
  - unfold split_pdf_pages. unfold bind at 1, PdfReader at 1.
    rewrite call_run, Hread. cbn [failure]. rewrite range_empty by lia.
    reflexivity.
Qed.

(** X7.  [split_pdf_pages] puts one file per page of the range in the ZIP,
    in page order: the file of page [i] is named page_i.pdf and holds that
    page alone, and no two files have the same name. *)
Theorem split_pdf_pages_files path a b w pages :
  read_path L path = Ok pages ->
  1 <= a -> b <= Z.of_nat (length pages) ->
  Forall (fun p => failure (write_pdf L [p]) = None) (pages_between pages a b) ->
  exists files,
    Forall2 (fun p f => write_pdf L [p] = Ok f) (pages_between pages a b) files
    /\ split_pdf_pages L path a b w
       = (Ok (combine (map entry_name (range a (b + 1))) files),
          after w (ok (ReadPdf (Path path))
                   :: map (fun p => ok (WritePdf [p])) (pages_between pages a b)))
    /\ length files = length (range a (b + 1))
    /\ NoDup (map entry_name (range a (b + 1))).
Proof.
  intros Hread Ha Hb Hall.
  destruct (split_loop L pages b _ a [] (after w [ok (ReadPdf (Path path))])
              eq_refl Ha Hb Hall) as (files & Hfiles & Hrun).
  exists files. split; [exact Hfiles|]. split; [|split].
  - unfold split_pdf_pages. unfold bind at 1, PdfReader at 1.
    rewrite call_run, Hread. cbn [failure].
    change (ReadPdf (Path path), @None exn) with (ok (ReadPdf (L:=L) (Path path))).
    rewrite Hrun, after_after. reflexivity.
  - apply Forall2_length in Hfiles. rewrite <- Hfiles, range_length.
    rewrite pages_between_length by assumption. f_equal. lia.
  - apply NoDup_fmap_2; [|apply range_NoDup].
    intros i j. apply entry_name_inj.
Qed.

(** X8.  [merge_pdfs] writes the pages of its inputs one input after the
    other, in the order the inputs are given. *)
Theorem merge_pdfs_concatenates sources reads w :
  Forall2 (fun s pages =>
             match s with
             | Upload f => read_upload L f
             | Path p => read_path L p
             end = Ok pages) sources reads ->
  merge_pdfs L sources w
  = (write_pdf L (concat reads),
     after w (map (fun s => ok (ReadPdf s)) sources ++ [written (concat reads)])).
Proof.
  intros Hall. unfold merge_pdfs. unfold bind.
  rewrite (merge_loop L sources reads) by exact Hall.
  cbn [app]. unfold write. rewrite call_run, after_after. reflexivity.
Qed.

(** X9.  When an input of [merge_pdfs] cannot be read, the exception of the
    first such input is raised; the inputs after it are not read and nothing
    is written. *)
Theorem merge_pdfs_unreadable_input good reads bad rest x w :
  Forall2 (fun s pages =>
             match s with
             | Upload f => read_upload L f
             | Path p => read_path L p
             end = Ok pages) good reads ->
  match bad with
  | Upload f => read_upload L f
  | Path p => read_path L p
  end = Raise x ->
  merge_pdfs L (good ++ bad :: rest) w
  = (Raise x,
     after w (map (fun s => ok (ReadPdf s)) good ++ [failed (ReadPdf bad) x])).
Proof.
  intros Hgood Hbad. unfold merge_pdfs. unfold bind at 1.
  assert (Hloop : forall writer w,
    for_each (good ++ bad :: rest)
      (fun f writer => reader <- PdfReader L f ;; ret (writer ++ reader)%list)
      writer w
    = (Raise x,
       after w (map (fun s => ok (ReadPdf s)) good ++ [failed (ReadPdf bad) x]))).
  { clear w. revert reads Hgood.
    induction good as [|s good IH]; intros reads Hgood writer w.
    - cbn [app for_each map]. unfold bind at 1. unfold bind at 1, PdfReader at 1.
      rewrite call_run, Hbad. reflexivity.
    - apply Forall2_cons_inv_l in Hgood.
      destruct Hgood as (pages & reads' & Hs & Hgood & ->).
      cbn [app for_each map]. unfold bind at 1. unfold bind at 1, PdfReader at 1.
      rewrite call_run, Hs. cbn [failure ret].
      rewrite (IH reads') by exact Hgood. now rewrite after_after. }
  now rewrite Hloop.
Qed.

(** X10.  [remove_first_last_pages] writes the document without its first
    page, without its last page, or without both, as asked; a document of
    one page comes out empty as soon as one of the two is asked, and an
    empty one stays empty.  No page is lost otherwise. *)
Theorem remove_first_last_pages_trims path remove_first remove_last w pages :
  read_path L path = Ok pages ->
  let kept := without_last remove_last (without_first remove_first pages) in
  remove_first_last_pages L path remove_first remove_last w
  = (write_pdf L kept, after w [ok (ReadPdf (Path path)); written kept])
  /\ ((2 <= length pages)%nat ->
      length kept = (length pages - (if remove_first then 1 else 0)
                     - (if remove_last then 1 else 0))%nat)
  /\ ((length pages <= 1)%nat -> remove_first || remove_last = true ->
      kept = []).
Proof.
  intros Hread kept. subst kept. split; [|split].
  - unfold remove_first_last_pages. unfold bind at 1, PdfReader at 1.
    rewrite call_run, Hread. cbn [failure]. cbv zeta.
    assert (Hloop :
      for_each (range 0 (Z.of_nat (length pages)))
        (fun i writer =>
           if (remove_first && (i =? 0)%Z)
              || (remove_last && (i =? Z.of_nat (length pages) - 1)%Z)
           then ret writer
           else page <- lift (getitem L pages i) ;;
                ret (writer ++ [page])%list)
        [] (after w [ok (ReadPdf (L:=L) (Path path))])
      = (Ok (without_last remove_last (without_first remove_first pages)),
         after w [ok (ReadPdf (L:=L) (Path path))])).
    { destruct pages as [|p rest].
      - cbn. unfold without_last, without_first.
        destruct remove_first, remove_last; reflexivity.
      - rewrite range_cons by (cbn [length]; lia). cbn [for_each].
        rewrite andb_true_r.
        change (0 + 1) with (Z.of_nat 1).
        destruct rest as [|q rest].
        + cbn [length]. rewrite andb_true_r.
          rewrite range_empty by lia. unfold without_last, without_first.
          destruct remove_first, remove_last; reflexivity.
        + replace (0 =? Z.of_nat (length (p :: q :: rest)) - 1)%Z with false
            by (symmetry; apply Z.eqb_neq; cbn [length]; lia).
          rewrite andb_false_r, orb_false_r.
          destruct remove_first.
          * unfold bind at 1, ret at 1.
            rewrite (tail_loop L (p :: q :: rest) true remove_last _ 1)
              by (cbn [length]; try reflexivity; lia).
            reflexivity.
          * unfold bind at 1. unfold bind at 1, lift at 1.
            rewrite (getitem_in_range L _ _ p) by (try lia; reflexivity).
            cbn [ret].
            rewrite (tail_loop L (p :: q :: rest) false remove_last _ 1)
              by (cbn [length]; try reflexivity; lia).
            unfold without_last, without_first. cbn [skipn app].
            destruct remove_last; reflexivity. }
    unfold bind at 1.
    change (ReadPdf (Path path), @None exn) with (ok (ReadPdf (L:=L) (Path path))).
    rewrite Hloop. unfold write. rewrite call_run, after_after. reflexivity.
  - intros Hlen. unfold without_last, without_first.
    destruct pages as [|p [|q rest]]; cbn [length] in Hlen; try lia.
    destruct remove_first, remove_last; cbn [tl];
      rewrite ?removelast_firstn_len, ?length_firstn; cbn [length]; lia.
  - intros Hlen Hflag. unfold without_last, without_first.
    destruct pages as [|p [|q rest]]; cbn [length] in Hlen; try lia;
      destruct remove_first, remove_last; try discriminate Hflag; reflexivity.
Qed.

(** X11.  Extracting the range from page 1 to the last page writes the same
    pages as merging the document alone. *)
Theorem extract_whole_document_is_merge path w pages :
  read_path L path = Ok pages ->
  extract_page_range L path 1 (Z.of_nat (length pages)) w
  = merge_pdfs L [Path path] w.
Proof.
  intros Hread.
  transitivity (write_pdf L pages,
                after w [ok (ReadPdf (L:=L) (Path path)); written pages]).
  - unfold extract_page_range. unfold bind at 1, PdfReader at 1.
    rewrite call_run, Hread. cbn [failure]. unfold bind at 1.
    rewrite (select_loop L pages (Z.of_nat (length pages)) _ 1)
      by (try reflexivity; lia).
    unfold pages_between.
    replace (Z.to_nat (Z.of_nat (length pages) - 1 + 1)) with (length pages)
      by lia.
    change (Z.to_nat (1 - 1)) with 0%nat. cbn [skipn app].
    rewrite firstn_all. unfold write. rewrite call_run, after_after.
    reflexivity.
  - symmetry. unfold merge_pdfs. unfold bind.
    rewrite (merge_loop L [Path path] [pages])
      by (constructor; [exact Hread | constructor]).
    cbn [app concat map]. rewrite app_nil_r.
    unfold write. rewrite call_run, after_after. reflexivity.
Qed.

End PdfToolsProperties.

(** ** utils/pdf_processing.py and utils/pdf_export.py: the PyMuPDF tools *)

Section FitzToolsFacts.
Import PyStr PyIter FitzTools FitzSpec.

Variable L : library.

Lemma joined_app (a : string) t texts :
  a +:+ joined (t :: texts) = (a +:+ t) +:+ joined texts.
Proof. cbn [joined fold_right]. now rewrite append_assoc. Qed.

(** The loop over the pages that collects their text. *)
Lemma text_loop doc : forall texts text w,
  Forall2 (fun p t => get_text L p = Ok t) doc texts ->
  for_each doc
    (fun page text => t <- call (GetText page) (get_text L page) ;; ret (text +:+ t))
    text w
  = (Ok (text +:+ joined texts),
     after w (map (fun p => ok (GetText p)) doc)).
Proof.
  induction doc as [|p doc IH]; intros texts text w Hall.
  - apply Forall2_nil_inv_l in Hall. subst texts. cbn.
    now rewrite append_empty_r, after_nil.
  - apply Forall2_cons_inv_l in Hall.
    destruct Hall as (t & texts' & Hp & Hall & ->).
    cbn [for_each]. unfold bind at 1. unfold bind at 1.
    rewrite call_run, Hp. cbn [failure ret].
    rewrite (IH texts') by exact Hall.
    rewrite joined_app, after_after. reflexivity.
Qed.

(** The loop of [ocr_pdf]. *)
Lemma ocr_loop lang doc : forall texts text w,
  Forall2 (fun p t => recognize L lang p = Ok t) doc texts ->
  fst (for_each doc
         (fun page text =>
            pix <- call (GetPixmap page) (get_pixmap L page) ;;
            png <- call (ToBytes "png") (tobytes L pix "png") ;;
            img <- call ImageOpen (image_open L png) ;;
            let custom_config := "--oem 3 --psm 6" in
            t <- call (ImageToString lang custom_config)
                      (image_to_string L img lang custom_config) ;;
            ret (text +:+ (t +:+ "
")))
         text w)
  = Ok (text +:+ joined (map line texts)).
Proof.
  induction doc as [|p doc IH]; intros texts text w Hall.
  - apply Forall2_nil_inv_l in Hall. subst texts. cbn.
    now rewrite append_empty_r.
  - apply Forall2_cons_inv_l in Hall.
    destruct Hall as (t & texts' & Hp & Hall & ->).
    cbn [for_each]. unfold recognize in Hp.
    unfold bind at 1. unfold bind at 1. rewrite call_run.
    destruct (get_pixmap L p) as [pix|]; [|discriminate Hp].
    unfold bind at 1. rewrite call_run.
    destruct (tobytes L pix "png") as [png|]; [|discriminate Hp].
    unfold bind at 1. rewrite call_run.
    destruct (image_open L png) as [img|]; [|discriminate Hp].
    cbv zeta. unfold bind at 1. rewrite call_run, Hp. cbn [ret].
    rewrite (IH texts') by exact Hall.
    cbn [map]. rewrite joined_app. reflexivity.
Qed.

(** X12.  [extract_text_from_pdf] returns the texts of the pages one after
    the other, in page order, with nothing between them. *)
Theorem extract_text_in_page_order path w doc texts :
  fitz_open L path = Ok doc ->
  Forall2 (fun p t => get_text L p = Ok t) doc texts ->
  extract_text_from_pdf L path w
  = (Ok (joined texts),
     after w (ok (Open path) :: map (fun p => ok (GetText p)) doc)).
Proof.
  intros Hopen Hall. unfold extract_text_from_pdf. unfold bind.
  rewrite call_run, Hopen. rewrite (text_loop doc texts) by exact Hall.
  rewrite append_nil, after_after. reflexivity.
Qed.

(** X13.  [export_to_text] writes to the file exactly the text that
    [extract_text_from_pdf] returns for the same document, and writes
    nothing when the extraction fails. *)
Theorem export_to_text_writes_extracted_text path out w :
  let output_path := default "output.txt" out in
  export_to_text L path out w
  = match extract_text_from_pdf L path w with
    | (Ok text, w') =>
        (match write_text L output_path text with
         | Ok _ => Ok output_path
         | Raise x => Raise x
         end,
         after w' [(WriteText output_path text,
                    failure (write_text L output_path text))])
    | (Raise x, w') => (Raise x, w')
    end.
Proof.
  cbv zeta.
  assert (Hassoc : forall (A B C : Type) (c : M (event L) A)
                     (k : A -> M (event L) B) (k' : B -> M (event L) C) w,
             bind c (fun a => bind (k a) k') w = bind (bind c k) k' w).
  { intros A B C c k k' w0. unfold bind.
    destruct (c w0) as [[a|x] w1]; reflexivity. }
  unfold export_to_text. cbv zeta. rewrite Hassoc.
  fold (extract_text_from_pdf L path). unfold bind at 1.
  destruct (extract_text_from_pdf L path w) as [[text|x] w']; [|reflexivity].
  unfold bind. rewrite call_run.
  destruct (write_text L _ text) as [[]|x]; reflexivity.
Qed.

(** X14.  [ocr_pdf] returns what Tesseract reads on each page, in page
    order, each followed by a newline. *)
Theorem ocr_pdf_lines path lang w doc texts :
  fitz_open L path = Ok doc ->
  Forall2 (fun p t => recognize L (default "eng" lang) p = Ok t) doc texts ->
  fst (ocr_pdf L path lang w) = Ok (joined (map line texts)).
Proof.
  intros Hopen Hall. unfold ocr_pdf. cbv zeta. unfold bind.
  rewrite call_run, Hopen.
  assert (H := ocr_loop (default "eng" lang) doc texts ""
                 (after w [(Open path, failure (Ok doc))]) Hall).
  cbv zeta in H.
  destruct (for_each doc _ "" _) as [r w'] eqn:E. cbn [fst] in H |- *.
  rewrite H. now rewrite append_nil.
Qed.

End FitzToolsFacts.

Section RotateAndHighlight.
Import PyStr PyIter FitzTools FitzSpec.
Local Open Scope list_scope.

Variable L : library.

Lemma getitem_page (doc : list (page L)) p pg :
  0 <= p -> doc !! Z.to_nat p = Some pg -> getitem L doc p = Ok (Z.to_nat p, pg).
Proof.
  intros Hp Hpg. unfold getitem.
  replace (0 <=? p)%Z with true by (symmetry; now apply Z.leb_le).
  now rewrite Hpg.
Qed.

Lemma getitem_outside (doc : list (page L)) p x :
  ~ (0 <= p < Z.of_nat (length doc)) -> page_outside L doc p = Raise x ->
  getitem L doc p = Raise x.
Proof.
  intros Hp Hx. unfold getitem. destruct (0 <=? p)%Z eqn:E; [|exact Hx].
  apply Z.leb_le in E.
  rewrite (lookup_ge_None_2 doc (Z.to_nat p)) by lia. exact Hx.
Qed.

(** The loop of [rotate_pages] over pages of the document, when the
    rotation by [angle] can always be set. *)
Lemma rotate_loop angle rot pages :
  (forall pg, set_rotation L pg angle = Ok (rot pg)) ->
  forall (doc : list (page L)) w,
  Forall (fun p => 0 <= p < Z.of_nat (length doc)) pages ->
  for_each pages
    (fun p doc =>
       found <- lift (getitem L doc p) ;;
       let '(i, pg) := found in
       pg' <- call (SetRotation i angle) (set_rotation L pg angle) ;;
       ret (<[i := pg']> doc))
    doc w
  = (Ok (fold_left (fun doc p => alter rot (Z.to_nat p) doc) pages doc),
     after w (map (fun p => ok (SetRotation (L:=L) (Z.to_nat p) angle)) pages)).
Proof.
  intros Hrot. induction pages as [|p pages IH]; intros doc w Hall.
  - cbn. now rewrite after_nil.
  - apply Forall_cons_1 in Hall. destruct Hall as [Hp Hall].
    destruct (lookup_lt_is_Some_2 doc (Z.to_nat p)) as [pg Hpg]; [lia|].
    cbn [for_each fold_left]. unfold bind at 1. unfold bind at 1, lift at 1.
    rewrite (getitem_page doc p pg) by (try lia; exact Hpg).
    unfold bind at 1. rewrite call_run, Hrot. cbn [failure ret].
    assert (Halter : <[Z.to_nat p := rot pg]> doc = alter rot (Z.to_nat p) doc).
    { apply list_eq. intros j.
      destruct (Nat.eq_dec (Z.to_nat p) j) as [<-|Hne].
      - rewrite list_lookup_insert_eq by lia.
        now rewrite list_lookup_alter_eq, Hpg.
      - now rewrite list_lookup_insert_ne, list_lookup_alter_ne. }
    rewrite Halter, IH by (now rewrite length_alter).
    rewrite after_after. reflexivity.
Qed.

Lemma rotated_length rot pages : forall (doc : list (page L)),
  length (fold_left (fun doc p => alter rot (Z.to_nat p) doc) pages doc)
  = length doc.
Proof.
  induction pages as [|p pages IH]; intros doc; [reflexivity|].
  cbn [fold_left]. now rewrite IH, length_alter.
Qed.

Lemma rotated_other rot pages j : forall (doc : list (page L)),
  Forall (fun p => 0 <= p) pages ->
  ~ In (Z.of_nat j) pages ->
  fold_left (fun doc p => alter rot (Z.to_nat p) doc) pages doc !! j = doc !! j.
Proof.
  induction pages as [|p pages IH]; intros doc Hall Hj; [reflexivity|].
  apply Forall_cons_1 in Hall. destruct Hall as [Hp Hall].
  cbn [fold_left]. rewrite IH; [|exact Hall|cbn in Hj; tauto].
  apply list_lookup_alter_ne. cbn in Hj. lia.
Qed.

(** A page comes out with the rotation set once for each time it is
    listed. *)
Lemma rotated_count rot pages j : forall (doc : list (page L)),
  Forall (fun p => 0 <= p) pages ->
  fold_left (fun doc p => alter rot (Z.to_nat p) doc) pages doc !! j
  = Nat.iter (count_occ Z.eq_dec pages (Z.of_nat j)) rot <$> doc !! j.
Proof.
  induction pages as [|p pages IH]; intros doc Hall.
  - cbn. now destruct (doc !! j).
  - apply Forall_cons_1 in Hall. destruct Hall as [Hp Hall].
    cbn [fold_left count_occ]. rewrite IH by exact Hall.
    destruct (Z.eq_dec p (Z.of_nat j)) as [->|Hne].
    + rewrite Nat2Z.id, list_lookup_alter_eq.
      destruct (doc !! j) as [pg|]; [|reflexivity].
      cbn. f_equal. symmetry. apply Nat.iter_succ_r.
    + rewrite list_lookup_alter_ne by lia. reflexivity.
Qed.

(** X15.  [rotate_pages] changes only the listed pages: the saved document
    has as many pages as the source, and each of its pages has had the
    rotation set once for each time it is listed.  So a page that is not
    listed is saved as it was, and a page listed once is saved with the
    rotation set, whatever else the list holds. *)
Theorem rotate_pages_touches_listed_pages_only path pages angle out w doc rot :
  fitz_open L path = Ok doc ->
  (forall pg, set_rotation L pg angle = Ok (rot pg)) ->
  Forall (fun p => 0 <= p < Z.of_nat (length doc)) pages ->
  let output_path := default "rotated.pdf" out in
  let times j := count_occ Z.eq_dec pages (Z.of_nat j) in
  exists saved,
    rotate_pages L path pages angle out w
    = (match save L saved output_path with
       | Ok _ => Ok output_path
       | Raise x => Raise x
       end,
       after w (ok (Open (L:=L) path)
                :: map (fun p => ok (SetRotation (L:=L) (Z.to_nat p) angle)) pages
                ++ [(Save saved output_path, failure (save L saved output_path))]))
    /\ length saved = length doc
    /\ (forall j, saved !! j = Nat.iter (times j) rot <$> doc !! j)
    /\ (forall j, ~ In (Z.of_nat j) pages -> saved !! j = doc !! j)
    /\ (forall j, times j = 1%nat -> saved !! j = rot <$> doc !! j).
Proof.
  intros Hopen Hrot Hall output_path times.
  assert (Hnn : Forall (fun p => 0 <= p) pages).
  { eapply List.Forall_impl; [|exact Hall]. cbn. intros p Hp. lia. }
  exists (fold_left (fun doc p => alter rot (Z.to_nat p) doc) pages doc).
  split; [|split; [|split; [|split]]].
  - unfold rotate_pages. fold output_path. unfold bind at 1.
    rewrite call_run, Hopen. cbn [failure]. unfold bind at 1.
    rewrite (rotate_loop angle rot pages Hrot doc) by assumption.
    unfold bind. rewrite call_run, !after_after. cbn [app].
    destruct (save L _ output_path) as [[]|x]; reflexivity.
  - apply rotated_length.
  - intros j. now apply rotated_count.
  - intros j Hj. now apply rotated_other.
  - intros j Hj. rewrite rotated_count by exact Hnn. fold (times j).
    rewrite Hj. reflexivity.
Qed.

(** X16.  A page number that PyMuPDF does not accept stops [rotate_pages]:
    the pages listed after it are not rotated and nothing is saved. *)
Theorem rotate_pages_stops_at_missing_page path good p rest angle out w doc rot x :
  fitz_open L path = Ok doc ->
  (forall pg, set_rotation L pg angle = Ok (rot pg)) ->
  Forall (fun p => 0 <= p < Z.of_nat (length doc)) good ->
  ~ (0 <= p < Z.of_nat (length doc)) ->
  (forall d, page_outside L d p = Raise x) ->
  rotate_pages L path (good ++ p :: rest) angle out w
  = (Raise x,
     after w (ok (Open (L:=L) path)
              :: map (fun p => ok (SetRotation (L:=L) (Z.to_nat p) angle)) good)).
Proof.
  intros Hopen Hrot Hgood Hp Hout. unfold rotate_pages. cbv zeta.
  unfold bind at 1. rewrite call_run, Hopen. cbn [failure]. unfold bind at 1.
  assert (Hloop : forall (d : list (page L)) w,
    length d = length doc ->
    for_each (good ++ p :: rest)
      (fun p doc =>
         found <- lift (getitem L doc p) ;;
         let '(i, pg) := found in
         pg' <- call (SetRotation i angle) (set_rotation L pg angle) ;;
         ret (<[i := pg']> doc))
      d w
    = (Raise x,
       after w (map (fun p => ok (SetRotation (L:=L) (Z.to_nat p) angle)) good))).
  { clear w. induction good as [|q good IH]; intros d w Hlen.
    - cbn [app for_each map]. unfold bind at 1. unfold bind at 1, lift at 1.
      rewrite (getitem_outside d p x) by (rewrite ?Hlen; auto).
      now rewrite after_nil.
    - apply Forall_cons_1 in Hgood. destruct Hgood as [Hq Hgood].
      destruct (lookup_lt_is_Some_2 d (Z.to_nat q)) as [pg Hpg]; [lia|].
      cbn [app for_each map]. unfold bind at 1. unfold bind at 1, lift at 1.
      rewrite (getitem_page d q pg) by (try lia; exact Hpg).
      unfold bind at 1. rewrite call_run, Hrot. cbn [failure ret].
      rewrite IH by (try assumption; now rewrite length_insert).
      rewrite after_after. reflexivity. }
  rewrite Hloop by reflexivity. rewrite after_after. reflexivity.
Qed.

(** The inner loop of [keyword_highlight_pdf]. *)
Lemma highlight_loop i mark matches : forall (pg : page L) w,
  (forall pg r, add_highlight_annot L pg r = Ok (mark pg r)) ->
  for_each matches
    (fun rect page => call (AddHighlight i rect) (add_highlight_annot L page rect))
    pg w
  = (Ok (fold_left mark matches pg),
     after w (map (fun r => ok (AddHighlight (L:=L) i r)) matches)).
Proof.
  intros pg w Hmark. revert pg w.
  induction matches as [|r matches IH]; intros pg w.
  - cbn. now rewrite after_nil.
  - cbn [for_each fold_left map]. unfold bind. rewrite call_run, Hmark.
    cbn [failure]. fold (@bind (event L) (page L) (page L)).
    rewrite IH, after_after. reflexivity.
Qed.

Lemma insert_middle {A} (pre : list A) x y rest :
  <[length pre := y]> (pre ++ x :: rest) = pre ++ y :: rest.
Proof.
  rewrite <- (Nat.add_0_r (length pre)). now rewrite insert_app_r.
Qed.

(** The outer loop, from the page after [pre]. *)
Lemma search_loop keyword found mark rest : forall (pre : list (page L)) w,
  (forall pg, In pg rest -> search_for L pg keyword = Ok (found pg)) ->
  (forall pg r, add_highlight_annot L pg r = Ok (mark pg r)) ->
  exists calls,
    for_each (combine (seq (length pre) (length rest)) rest)
      (fun numbered doc =>
         let '(i, page) := numbered in
         matches <- call (SearchFor i keyword) (search_for L page keyword) ;;
         page <- for_each matches
                   (fun rect page =>
                      call (AddHighlight i rect)
                           (add_highlight_annot L page rect))
                   page ;;
         ret (<[i := page]> doc))
      (pre ++ rest) w
    = (Ok (pre ++ map (fun pg => fold_left mark (found pg) pg) rest),
       after w calls)
    /\ Forall (fun c => is_save c = false) calls.
Proof.
  induction rest as [|pg rest IH]; intros pre w Hfound Hmark.
  - exists []. cbn. split; [now rewrite after_nil|constructor].
  - destruct (IH (pre ++ [fold_left mark (found pg) pg])
                (after w (ok (SearchFor (L:=L) (length pre) keyword)
                          :: map (fun r => ok (AddHighlight (L:=L) (length pre) r))
                               (found pg))))
      as (calls & Hrun & Hcalls);
      [intros q Hq; apply Hfound; now right | exact Hmark |].
    exists (ok (SearchFor (L:=L) (length pre) keyword)
            :: map (fun r => ok (AddHighlight (L:=L) (length pre) r)) (found pg)
            ++ calls).
    split.
    + cbn [length seq combine for_each]. unfold bind at 1. unfold bind at 1.
      rewrite call_run, (Hfound pg) by now left. cbn [failure].
      unfold bind at 1. rewrite (highlight_loop _ mark) by exact Hmark.
      cbn [ret]. rewrite insert_middle.
      rewrite length_app, Nat.add_1_r, <- app_assoc in Hrun. cbn [app] in Hrun.
      rewrite after_after. cbn [app].
      change (SearchFor (length pre) keyword, @None exn)
        with (ok (SearchFor (L:=L) (length pre) keyword)).
      rewrite Hrun, after_after. cbn [map]. rewrite <- app_assoc.
      reflexivity.
    + constructor; [reflexivity|]. apply Forall_app. split; [|exact Hcalls].
      apply List.Forall_map. apply List.Forall_forall. reflexivity.
Qed.

(** X17.  [keyword_highlight_pdf] saves every page with one highlight for
    each place where the keyword was found on it; a page without the
    keyword is saved as it was, and the document is saved, once and at the
    end, also when the keyword is found nowhere. *)
Theorem keyword_highlight_marks_matches path keyword out w doc found mark :
  fitz_open L path = Ok doc ->
  (forall pg, In pg doc -> search_for L pg keyword = Ok (found pg)) ->
  (forall pg r, add_highlight_annot L pg r = Ok (mark pg r)) ->
  let output_path := default "highlighted.pdf" out in
  let saved := map (fun pg => fold_left mark (found pg) pg) doc in
  exists calls,
    keyword_highlight_pdf L path keyword out w
    = (match save_compact L saved output_path with
       | Ok _ => Ok output_path
       | Raise x => Raise x
       end,
       after w (ok (Open (L:=L) path) :: calls
                ++ [(SaveCompact saved output_path,
                     failure (save_compact L saved output_path))]))
    /\ Forall (fun c => is_save c = false) calls
    /\ length saved = length doc
    /\ (forall i pg, doc !! i = Some pg -> found pg = [] -> saved !! i = Some pg).
Proof.
  intros Hopen Hfound Hmark output_path saved.
  destruct (search_loop keyword found mark doc []
              (after w [ok (Open (L:=L) path)]) Hfound Hmark)
    as (calls & Hrun & Hcalls).
  exists calls. split; [|split; [exact Hcalls|split]].
  - unfold keyword_highlight_pdf. fold output_path. unfold bind at 1.
    rewrite call_run, Hopen. cbn [failure]. unfold bind at 1.
    unfold enumerate. cbn [length app] in Hrun.
    change (Open path, @None exn) with (ok (Open (L:=L) path)).
    rewrite Hrun. cbn [app]. fold saved.
    unfold bind. rewrite call_run, !after_after. cbn [app].
    destruct (save_compact L saved output_path) as [[]|x]; reflexivity.
  - subst saved. now rewrite length_map.
  - intros i pg Hi Hnone. subst saved.
    rewrite list_lookup_fmap, Hi. cbn. now rewrite Hnone.
Qed.

End RotateAndHighlight.

(** ** utils/pdf_processing.py: [extract_images] *)

Section ExtractImages.
Import PyStr PyIter FitzTools FitzSpec.
Local Open Scope list_scope.

Variable L : library.

(** The loop over the images of one page. *)
Lemma images_loop folder i base_of data_of xs : forall k saved w,
  (forall xref, In xref xs ->
     extract_image L xref = Ok (base_of xref)
     /\ image (base_of xref) = Some (data_of xref)) ->
  (forall p b, write_bytes L p b = Ok tt) ->
  for_each (combine (seq k (length xs)) xs)
    (fun numbered saved =>
       let '(idx, xref) := numbered in
       base <- call (ExtractImage xref) (extract_image L xref) ;;
       img_bytes <- lift (image_of L base) ;;
       let ext := default "png" (ext base) in
       let out_path :=
         path_join L folder
           ("page_" +:+ str (Z.of_nat i + 1) +:+ "_img_"
            +:+ str (Z.of_nat idx + 1) +:+ "." +:+ ext) in
       call (WriteBytes out_path img_bytes)
            (write_bytes L out_path img_bytes) ;;;
       ret (saved ++ [out_path]))
    saved w
  = (Ok (saved
         ++ imap (fun idx xref => image_path folder i (k + idx) (base_of xref)) xs),
     after w (concat (imap (fun idx xref =>
                              image_calls folder i (k + idx) xref
                                (base_of xref) (data_of xref))
                           xs))).
Proof.
  induction xs as [|xref xs IH]; intros k saved w Hex Hwr.
  - cbn. now rewrite app_nil_r, after_nil.
  - destruct (Hex xref (or_introl eq_refl)) as [Hbase Himg].
    cbn [length seq combine for_each]. unfold bind at 1. unfold bind at 1.
    rewrite call_run, Hbase. cbn [failure].
    unfold bind at 1. unfold lift at 1. unfold image_of at 1.
    rewrite Himg.
    cbv zeta. unfold bind at 1. rewrite call_run, Hwr. cbn [failure ret].
    match goal with
    | |- context [for_each _ _ ?s ?w1] =>
        assert (Hw' := IH (S k) s w1
                         (fun y Hy => Hex y (or_intror Hy)) Hwr)
    end.
    cbv zeta in Hw'. rewrite Hw'.
    rewrite <- app_assoc, !after_after. cbn [app imap concat].
    rewrite Nat.add_0_r.
    rewrite (imap_ext
               (fun idx xref => image_path folder i (S k + idx) (base_of xref))
               ((fun idx xref => image_path folder i (k + idx) (base_of xref)) ∘ S))
      by (intros j y _; cbn; now rewrite Nat.add_succ_r).
    rewrite (imap_ext
               (fun idx xref => image_calls folder i (S k + idx) xref
                                  (base_of xref) (data_of xref))
               ((fun idx xref => image_calls folder i (k + idx) xref
                                   (base_of xref) (data_of xref)) ∘ S))
      by (intros j y _; cbn; now rewrite Nat.add_succ_r).
    reflexivity.
Qed.

(** The loop over the pages. *)
Lemma pages_images_loop folder base_of data_of doc : forall xrefs k saved w,
  Forall2 (fun pg xs => get_images L pg = Ok xs) doc xrefs ->
  (forall xref, In xref (concat xrefs) ->
     extract_image L xref = Ok (base_of xref)
     /\ image (base_of xref) = Some (data_of xref)) ->
  (forall p b, write_bytes L p b = Ok tt) ->
  for_each (combine (seq k (length doc)) doc)
    (fun numbered saved =>
       let '(i, page) := numbered in
       images <- call (GetImages i) (get_images L page) ;;
       for_each (enumerate images)
         (fun numbered saved =>
            let '(idx, xref) := numbered in
            base <- call (ExtractImage xref) (extract_image L xref) ;;
            img_bytes <- lift (image_of L base) ;;
            let ext := default "png" (ext base) in
            let out_path :=
              path_join L folder
                ("page_" +:+ str (Z.of_nat i + 1) +:+ "_img_"
                 +:+ str (Z.of_nat idx + 1) +:+ "." +:+ ext) in
            call (WriteBytes out_path img_bytes)
                 (write_bytes L out_path img_bytes) ;;;
            ret (saved ++ [out_path]))
         saved)
    saved w
  = (Ok (saved
         ++ concat (imap (fun i =>
                            imap (fun idx xref =>
                                    image_path folder (k + i) idx (base_of xref)))
                         xrefs)),
     after w (concat (imap (fun i => page_calls folder base_of data_of (k + i))
                           xrefs))).
Proof.
  induction doc as [|pg doc IH]; intros xrefs k saved w Hall Hex Hwr.
  - apply Forall2_nil_inv_l in Hall. subst xrefs. cbn.
    now rewrite app_nil_r, after_nil.
  - apply Forall2_cons_inv_l in Hall.
    destruct Hall as (xs & xrefs' & Hpg & Hall & ->).
    cbn [length seq combine for_each]. unfold bind at 1. unfold bind at 1.
    rewrite call_run, Hpg. cbn [failure].
    unfold enumerate in IH |- *. cbv zeta in IH |- *.
    match goal with
    | |- context [for_each (combine (seq 0 (length xs)) xs) _ ?s ?w0] =>
        assert (Hw1 := images_loop folder k base_of data_of xs 0 s w0
                         (fun y Hy => Hex y (in_or_app _ _ _ (or_introl Hy)))
                         Hwr)
    end.
    cbv zeta in Hw1. rewrite Hw1.
    match goal with
    | |- context [for_each _ _ ?s ?w2] =>
        assert (Hw' := IH xrefs' (S k) s w2 Hall
                         (fun y Hy => Hex y (in_or_app _ _ _ (or_intror Hy)))
                         Hwr)
    end.
    rewrite Hw'. rewrite <- app_assoc, !after_after. cbn [imap concat].
    rewrite Nat.add_0_r.
    rewrite (imap_ext
               (fun i => imap (fun idx xref =>
                                 image_path folder (S k + i) idx (base_of xref)))
               ((fun i => imap (fun idx xref =>
                                  image_path folder (k + i) idx (base_of xref))) ∘ S))
      by (intros j y _; cbn; now rewrite Nat.add_succ_r).
    rewrite (imap_ext
               (fun i => page_calls folder base_of data_of (S k + i))
               ((fun i => page_calls folder base_of data_of (k + i)) ∘ S))
      by (intros j y _; cbn; now rewrite Nat.add_succ_r).
    reflexivity.
Qed.

Lemma concat_imap_length {A B} (l : list (list A)) :
  forall f : nat -> list A -> list B,
  (forall i ys, length (f i ys) = length ys) ->
  length (concat (imap f l)) = length (concat l).
Proof.
  induction l as [|xs l IH]; intros f Hf; [reflexivity|].
  cbn [imap concat]. rewrite !length_app, Hf. f_equal.
  apply IH. intros i ys. apply Hf.
Qed.

Lemma files_written_app (a b : list (event L * option exn)) :
  files_written (a ++ b) = files_written a ++ files_written b.
Proof.
  induction a as [|[e [x|]] a IH]; [reflexivity| |];
    destruct e; cbn [app files_written]; rewrite ?IH; reflexivity.
Qed.

Lemma files_written_concat_imap {A} (l : list A) :
  forall (g : nat -> A -> list (event L * option exn))
         (F : nat -> A -> list (string * bytes L)),
  (forall i x, files_written (g i x) = F i x) ->
  files_written (concat (imap g l)) = concat (imap F l).
Proof.
  induction l as [|x l IH]; intros g F Hg; [reflexivity|].
  cbn [imap concat]. rewrite files_written_app, Hg. f_equal.
  apply IH. intros i y. apply Hg.
Qed.

Lemma concat_imap_singleton {A B} (l : list A) :
  forall h : nat -> A -> B,
  concat (imap (fun i x => [h i x]) l) = imap h l.
Proof.
  induction l as [|x l IH]; intros h; [reflexivity|].
  cbn [imap concat app]. f_equal. apply (IH (h ∘ S)).
Qed.

Lemma map_imap {A B C} (f : B -> C) (l : list A) :
  forall g : nat -> A -> B,
  map f (imap g l) = imap (fun i x => f (g i x)) l.
Proof.
  induction l as [|x l IH]; intros g; [reflexivity|].
  cbn [imap map]. f_equal. apply (IH (g ∘ S)).
Qed.

Lemma map_concat_imap {A B C} (f : B -> C) (l : list A) :
  forall (G : nat -> A -> list B) (F : nat -> A -> list C),
  (forall i x, map f (G i x) = F i x) ->
  map f (concat (imap G l)) = concat (imap F l).
Proof.
  induction l as [|x l IH]; intros G F HG; [reflexivity|].
  cbn [imap concat]. rewrite map_app, HG. f_equal.
  apply IH. intros i y. apply HG.
Qed.

(** X18.  [extract_images] writes one file per embedded image, page after
    page and image after image on a page: the bytes of image [idx] of page
    [i] (both from 0) are written to the file named page_(i+1)_img_(idx+1)
    with the extension PyMuPDF names, "png" when it names none.  The paths
    of the files written are returned in the order written, and nothing
    else is written. *)
Theorem extract_images_saves_every_image path out w doc xrefs base_of data_of :
  let folder := default "extracted_images" out in
  makedirs L folder = Ok tt ->
  fitz_open L path = Ok doc ->
  Forall2 (fun pg xs => get_images L pg = Ok xs) doc xrefs ->
  (forall xref, In xref (concat xrefs) ->
     extract_image L xref = Ok (base_of xref)
     /\ image (base_of xref) = Some (data_of xref)) ->
  (forall p b, write_bytes L p b = Ok tt) ->
  let saved :=
    concat (imap (fun i =>
                    imap (fun idx xref => image_path folder i idx (base_of xref)))
                 xrefs) in
  let calls :=
    ok (MakeDirs folder) :: ok (Open path)
    :: concat (imap (page_calls folder base_of data_of) xrefs) in
  extract_images L path out w = (Ok saved, after w calls)
  /\ length saved = length (concat xrefs)
  /\ files_written calls
     = concat (imap (fun i =>
                       imap (fun idx xref =>
                               (image_path folder i idx (base_of xref),
                                data_of xref)))
                    xrefs)
  /\ map fst (files_written calls) = saved.
Proof.
  intros folder Hmk Hopen Hall Hex Hwr saved calls.
  assert (Hfiles : files_written calls
     = concat (imap (fun i =>
                       imap (fun idx xref =>
                               (image_path folder i idx (base_of xref),
                                data_of xref)))
                    xrefs)).
  { subst calls. cbn [files_written ok].
    apply files_written_concat_imap. intros i xs.
    unfold page_calls. cbn [files_written ok].
    rewrite (files_written_concat_imap xs _
               (fun idx xref => [(image_path folder i idx (base_of xref),
                                  data_of xref)]))
      by reflexivity.
    apply concat_imap_singleton. }
  split; [|split; [|split]].
  - unfold extract_images. fold folder. unfold bind at 1.
    rewrite call_run, Hmk. cbn [failure]. unfold bind at 1.
    rewrite call_run, Hopen. cbn [failure].
    match goal with
    | |- context [for_each _ _ [] ?w0] =>
        assert (Hw' := pages_images_loop folder base_of data_of doc xrefs 0 []
                         w0 Hall Hex Hwr)
    end.
    unfold enumerate in Hw' |- *. cbv zeta in Hw' |- *.
    rewrite Hw'. rewrite !after_after. reflexivity.
  - subst saved. apply concat_imap_length. intros i ys. apply length_imap.
  - exact Hfiles.
  - rewrite Hfiles. subst saved.
    apply map_concat_imap. intros i xs. apply map_imap.
Qed.

End ExtractImages.

Section ImagesFacts.
Import PyStr PyIter FitzTools FitzSpec.
Local Open Scope list_scope.

Variable L : library.

(** The loop of [extract_images] over pages without images. *)
Lemma no_images_loop rest : forall k saved w,
  (forall pg, In pg rest -> get_images L pg = Ok []) ->
  for_each (combine (seq k (length rest)) rest)
    (fun numbered saved =>
       let '(i, page) := numbered in
       images <- call (GetImages i) (get_images L page) ;;
       for_each (enumerate images)
         (fun numbered saved =>
            let '(idx, xref) := numbered in
            base <- call (ExtractImage xref) (extract_image L xref) ;;
            img_bytes <- lift (image_of L base) ;;
            let ext := default "png" (ext base) in
            let out_path :=
              path_join L "images_out"
                ("page_" +:+ str (Z.of_nat i + 1) +:+ "_img_"
                 +:+ str (Z.of_nat idx + 1) +:+ "." +:+ ext) in
            call (WriteBytes out_path img_bytes)
                 (write_bytes L out_path img_bytes) ;;;
            ret (saved ++ [out_path]))
         saved)
    saved w
  = (Ok saved,
     after w (map (fun i => ok (GetImages (L:=L) i)) (seq k (length rest)))).
Proof.
  induction rest as [|pg rest IH]; intros k saved w Hnone.
  - cbn. now rewrite after_nil.
  - cbn [length seq combine for_each map]. unfold bind at 1. unfold bind at 1.
    rewrite call_run, (Hnone pg) by now left. cbn [failure enumerate length seq combine for_each ret].
    rewrite IH by (intros q Hq; apply Hnone; now right).
    rewrite after_after. reflexivity.
Qed.

(** X19.  For a document without embedded images the tool "Extract Images"
    of main.py raises [IndexError]: [extract_images] returns an empty list
    and the tool takes its first element.  Nothing is shown. *)
Theorem extract_images_tool_without_images show path w doc :
  makedirs L "images_out" = Ok tt ->
  fitz_open L path = Ok doc ->
  (forall pg, In pg doc -> get_images L pg = Ok []) ->
  let w' := after w (ok (MakeDirs "images_out") :: ok (Open path)
                     :: map (fun i => ok (GetImages (L:=L) i)) (seq 0 (length doc))) in
  extract_images L path (Some "images_out") w = (Ok [], w')
  /\ extract_images_tool L show path w
     = (Raise (Exception "IndexError" "list index out of range"), w').
Proof.
  intros Hmk Hopen Hnone w'.
  assert (Hrun : extract_images L path (Some "images_out") w = (Ok [], w')).
  { unfold extract_images. cbn [default]. unfold bind at 1.
    rewrite call_run, Hmk. cbn [failure]. unfold bind at 1.
    rewrite call_run, Hopen. cbn [failure]. unfold enumerate at 1.
    rewrite (no_images_loop doc 0 []) by exact Hnone.
    rewrite !after_after. reflexivity. }
  split; [exact Hrun|].
  unfold extract_images_tool. unfold bind at 1. rewrite Hrun. reflexivity.
Qed.

(** X20.  With images, the tool "Extract Images" asks whether the path of
    the first saved image is a folder; as it is not, nothing is shown,
    however many images were saved. *)
Theorem extract_images_tool_tests_first_image show path w saved_first saved w' :
  extract_images L path (Some "images_out") w = (Ok (saved_first :: saved), w') ->
  isdir L saved_first = false ->
  extract_images_tool L show path w = (Ok tt, after w' [ok (IsDir saved_first)]).
Proof.
  intros Hrun Hdir. unfold extract_images_tool. unfold bind at 1.
  rewrite Hrun. cbn [first]. cbv beta iota delta [bind lift].
  rewrite call_run, Hdir.
  reflexivity.
Qed.

End ImagesFacts.

(** ** main.py: the tool "Reorder Pages" *)

Section ReorderTool.
Import PyStr App Processing PdfSpec Tools.
Local Open Scope list_scope.

Variable L : library.
Variable m : N.
Variable out_file : string -> string.
Variable offer : string -> M (event L) unit.

Lemma digits_not_blank t : isdigit t = true -> every isspace t = false.
Proof.
  destruct t as [|c t]; [discriminate|]. cbn [isdigit every].
  rewrite andb_true_iff. intros [Hc _]. now rewrite digit_not_space.
Qed.

Lemma typed_list_not_blank entries :
  entries <> [] -> Forall (well_padded m) entries ->
  negb (String.eqb (strip (join "," (map padded entries))) "") = true.
Proof.
  intros Hne Hall. apply negb_true_iff, String.eqb_neq. intros Hblank.
  destruct (strip_trimmed (join "," (map padded entries)))
    as (l & r & Hs & Hl & Hr & _).
  rewrite Hblank, append_nil in Hs.
  assert (Hsp : every isspace (join "," (map padded entries)) = true).
  { rewrite Hs, every_app, <- !all_space_every, Hl, Hr. reflexivity. }
  destruct entries as [|[[a i] b] entries]; [congruence|].
  apply Forall_cons_1 in Hall. destruct Hall as [(_ & _ & Hi & _) _].
  assert (Hd := digits_not_blank _ (str_isdigit i Hi)).
  destruct entries as [|e entries].
  - change (join "," (map padded [(a, i, b)])) with (a +:+ str i +:+ b) in Hsp.
    rewrite !every_app, Hd in Hsp.
    destruct (every isspace a), (every isspace b); discriminate Hsp.
  - change (join "," (map padded ((a, i, b) :: e :: entries)))
      with ((a +:+ str i +:+ b) +:+ "," +:+ join "," (map padded (e :: entries)))
      in Hsp.
    rewrite !every_app, Hd in Hsp.
    destruct (every isspace a), (every isspace b); discriminate Hsp.
Qed.

Lemma digit_fields_none fields :
  Forall (fun f => isdigit (strip f) = false) fields ->
  digit_fields m fields = Ok [].
Proof.
  induction fields as [|f fields IH]; intros Hall; [reflexivity|].
  apply Forall_cons_1 in Hall. destruct Hall as [Hf Hall].
  cbn [digit_fields]. rewrite Hf. auto.
Qed.

(** X21.  Typing page numbers of the document, separated by commas, and
    pressing the button saves a document whose pages are the pages typed,
    in the order typed, and offers the saved file for download. *)
Theorem reorder_tool_typed_pages path entries w src :
  entries <> [] ->
  Forall (well_padded m) entries ->
  fitz_open L path = Ok src ->
  Forall (fun e => snd (fst e) < Z.of_nat (length src)) entries ->
  let numbers := map (fun e => snd (fst e)) entries in
  let out_path := out_file "reordered.pdf" in
  exists dst,
    Forall2 (fun i pg => nth_error src (Z.to_nat i) = Some pg) numbers dst
    /\ (fitz_save L dst out_path = Ok tt ->
        reorder_tool L m out_file offer path (join "," (map padded entries)) true w
        = offer out_path
            (after w (ok (FitzOpen path) :: ok FitzNew
                      :: map (inserts src) numbers
                      ++ [ok (Save dst out_path)]))).
Proof.
  intros Hne Hpad Hopen Hlt numbers out_path.
  assert (Hrange : Forall (fun i => 0 <= i < Z.of_nat (length src)) numbers).
  { subst numbers. apply List.Forall_map.
    rewrite List.Forall_forall in Hpad, Hlt |- *. intros [[a i] b] He.
    specialize (Hpad _ He). specialize (Hlt _ He).
    destruct Hpad as (_ & _ & Hi & _). cbn in *. lia. }
  destruct (insert_loop L src numbers []
              (after (after w [ok (FitzOpen path)]) [ok FitzNew]) Hrange)
    as (dst & Hsel & Hrun).
  exists dst. split; [exact Hsel|]. intros Hsave.
  unfold reorder_tool. rewrite typed_list_not_blank by assumption.
  cbn [andb]. unfold bind at 1, lift at 1.
  rewrite page_numbers_typed by assumption. fold numbers.
  unfold bind at 1. unfold reorder_pages. cbn [default]. fold out_path.
  unfold bind at 1. rewrite call_run, Hopen. cbn [failure].
  unfold bind at 1. rewrite call_run. cbn [failure].
  unfold bind at 1.
  change (FitzOpen path, @None exn) with (ok (FitzOpen (L:=L) path)).
  change (FitzNew, @None exn) with (ok (FitzNew (L:=L))).
  rewrite Hrun. cbn [app].
  unfold bind at 1. rewrite call_run, Hsave. cbn [failure ret].
  rewrite !after_after. cbn [app]. rewrite <- ?app_assoc. reflexivity.
Qed.

(** X22.  A text that holds no number, such as a word or a negative
    number, still starts the reordering: a document without any page is
    handed to [save]. *)
Theorem reorder_tool_without_numbers path text w src :
  negb (String.eqb (strip text) "") = true ->
  Forall (fun f => isdigit (strip f) = false) (split "," text) ->
  fitz_open L path = Ok src ->
  let out_path := out_file "reordered.pdf" in
  let w' := after w [ok (FitzOpen path); ok FitzNew;
                     (Save [] out_path, failure (fitz_save L [] out_path))] in
  reorder_tool L m out_file offer path text true w
  = match fitz_save L [] out_path with
    | Ok _ => offer out_path w'
    | Raise x => (Raise x, w')
    end.
Proof.
  intros Hblank Hnone Hopen out_path w'. subst w'.
  unfold reorder_tool. rewrite Hblank. cbn [andb].
  unfold bind at 1, lift at 1. unfold page_numbers.
  rewrite digit_fields_none by exact Hnone.
  unfold bind at 1. unfold reorder_pages. cbn [default]. fold out_path.
  unfold bind at 1. rewrite call_run, Hopen. cbn [failure].
  unfold bind at 1. rewrite call_run. cbn [failure for_each ret].
  cbv beta iota delta [bind ret]. rewrite call_run.
  rewrite !after_after. cbn [app].
  destruct (fitz_save L [] out_path) as [[]|x]; reflexivity.
Qed.

End ReorderTool.

(** ** main.py: reading page numbers, on concrete texts *)

Section PageNumbersExamples.
Import PyStr App.

(** A word, a negative number and an empty field are dropped; the numbers
    read are 2, 0 and 7. *)
Lemma page_numbers_nonnegative_witness :
  page_numbers 4300 "2, 0 ,x,-3,, 007" = Ok [2; 0; 7]
  /\ Forall (fun i => 0 <= i) [2; 0; 7].
Proof.
  split; [reflexivity |].
  apply (page_numbers_nonnegative 4300 "2, 0 ,x,-3,, 007" [2; 0; 7]).
  reflexivity.
Defined.

Lemma page_numbers_round_trip_witness :
  page_numbers 4300 " 2,0 , 10 " = Ok [2; 0; 10].
Proof.
  apply (page_numbers_round_trip 4300
           [(" ", 2, ""); ("", 0, " "); (" ", 10, " ")]).
  repeat constructor; cbn; lia.
Defined.

Lemma page_numbers_skips_other_fields_witness :
  page_numbers 4300 "2,-1,0" = page_numbers 4300 "2,0".
Proof.
  apply (page_numbers_skips_other_fields 4300 ["2"] "-1" ["0"]).
  - repeat constructor.
  - reflexivity.
Defined.

Lemma page_numbers_superscript_digit_witness :
  page_numbers 4300 DemoApp.superscript_two
  = Raise (Exception "ValueError" DemoApp.superscript_two)
  /\ page_numbers 4300 (DemoApp.superscript_two +:+ "," +:+ "1")
     = Raise (Exception "ValueError" DemoApp.superscript_two).
Proof.
  apply (page_numbers_superscript_digit 4300 DemoApp.superscript_two "1");
    reflexivity.
Defined.

End PageNumbersExamples.

(** ** The PyPDF2 tools on the concrete library *)

Section PdfToolsExamples.
Import PyStr PyIter PdfTools.

Lemma extract_page_range_pages_witness :
  extract_page_range DemoTools.lib "in.pdf" 2 3 DemoTools.start
  = (Ok ["p2"; "p3"],
     World 0 [ok (ReadPdf (L:=DemoTools.lib) (Path "in.pdf"));
              ok (WritePdf (L:=DemoTools.lib) ["p2"; "p3"])]).
Proof.
  apply (extract_page_range_pages DemoTools.lib "in.pdf" 2 3 DemoTools.start
           DemoTools.pages); [reflexivity | lia | cbn; lia].
Defined.

Lemma empty_page_range_witness :
  extract_page_range DemoTools.lib "in.pdf" 9 2 DemoTools.start
  = (Ok [],
     World 0 [ok (ReadPdf (L:=DemoTools.lib) (Path "in.pdf"));
              ok (WritePdf (L:=DemoTools.lib) [])])
  /\ split_pdf_pages DemoTools.lib "in.pdf" 9 2 DemoTools.start
     = (Ok [], World 0 [ok (ReadPdf (L:=DemoTools.lib) (Path "in.pdf"))]).
Proof.
  apply (empty_page_range DemoTools.lib "in.pdf" 9 2 DemoTools.start
           DemoTools.pages); [reflexivity | lia].
Defined.

Lemma split_pdf_pages_files_witness :
  exists files,
    Forall2 (fun p f => write_pdf DemoTools.lib [p] = Ok f) ["p2"; "p3"] files
    /\ split_pdf_pages DemoTools.lib "in.pdf" 2 3 DemoTools.start
       = (Ok (combine ["page_2.pdf"; "page_3.pdf"] files),
          World 0 [ok (ReadPdf (L:=DemoTools.lib) (Path "in.pdf"));
                   ok (WritePdf (L:=DemoTools.lib) ["p2"]);
                   ok (WritePdf (L:=DemoTools.lib) ["p3"])])
    /\ length files = 2%nat
    /\ NoDup ["page_2.pdf"; "page_3.pdf"].
Proof.
  apply (split_pdf_pages_files DemoTools.lib "in.pdf" 2 3 DemoTools.start
           DemoTools.pages); [reflexivity | lia | cbn; lia | repeat constructor].
Defined.

Lemma merge_pdfs_concatenates_witness :
  merge_pdfs DemoTools.lib [Path "a.pdf"; Upload (L:=DemoTools.lib) ["x"; "y"]]
    DemoTools.start
  = (Ok ["p1"; "p2"; "p3"; "p4"; "x"; "y"],
     World 0 [ok (ReadPdf (L:=DemoTools.lib) (Path "a.pdf"));
              ok (ReadPdf (Upload (L:=DemoTools.lib) ["x"; "y"]));
              ok (WritePdf (L:=DemoTools.lib) ["p1"; "p2"; "p3"; "p4"; "x"; "y"])]).
Proof.
  apply (merge_pdfs_concatenates DemoTools.lib
           [Path "a.pdf"; Upload (L:=DemoTools.lib) ["x"; "y"]]
           [DemoTools.pages; ["x"; "y"]] DemoTools.start).
  repeat constructor.
Defined.

Lemma merge_pdfs_unreadable_input_witness :
  merge_pdfs DemoTools.lib
    [Path "a.pdf"; Path "missing.pdf"; Upload (L:=DemoTools.lib) ["x"]]
    DemoTools.start
  = (Raise (Exception "FileNotFoundError" "missing.pdf"),
     World 0 [ok (ReadPdf (L:=DemoTools.lib) (Path "a.pdf"));
              failed (ReadPdf (L:=DemoTools.lib) (Path "missing.pdf"))
                (Exception "FileNotFoundError" "missing.pdf")]).
Proof.
  apply (merge_pdfs_unreadable_input DemoTools.lib [Path "a.pdf"]
           [DemoTools.pages] (Path "missing.pdf")
           [Upload (L:=DemoTools.lib) ["x"]]
           (Exception "FileNotFoundError" "missing.pdf") DemoTools.start).
  - repeat constructor.
  - reflexivity.
Defined.

Lemma remove_first_last_pages_trims_witness :
  remove_first_last_pages DemoTools.lib "in.pdf" true true DemoTools.start
  = (Ok ["p2"; "p3"],
     World 0 [ok (ReadPdf (L:=DemoTools.lib) (Path "in.pdf"));
              ok (WritePdf (L:=DemoTools.lib) ["p2"; "p3"])]).
Proof.
  apply (remove_first_last_pages_trims DemoTools.lib "in.pdf" true true
           DemoTools.start DemoTools.pages).
  reflexivity.
Defined.

Lemma extract_whole_document_is_merge_witness :
  extract_page_range DemoTools.lib "in.pdf" 1 4 DemoTools.start
  = merge_pdfs DemoTools.lib [Path "in.pdf"] DemoTools.start.
Proof.
  apply (extract_whole_document_is_merge DemoTools.lib "in.pdf" DemoTools.start
           DemoTools.pages).
  reflexivity.
Defined.

End PdfToolsExamples.

(** ** The PyMuPDF tools on the concrete library *)

Section FitzToolsExamples.
Import PyStr PyIter FitzTools FitzSpec.
Local Open Scope list_scope.

Lemma extract_text_in_page_order_witness :
  extract_text_from_pdf DemoFitz.lib "in.pdf" DemoFitz.start
  = (Ok "a.b.c.",
     World 0 [ok (Open (L:=DemoFitz.lib) "in.pdf");
              ok (GetText (L:=DemoFitz.lib) "a");
              ok (GetText (L:=DemoFitz.lib) "b");
              ok (GetText (L:=DemoFitz.lib) "c")]).
Proof.
  apply (extract_text_in_page_order DemoFitz.lib "in.pdf" DemoFitz.start
           DemoFitz.doc ["a."; "b."; "c."]).
  - reflexivity.
  - repeat constructor.
Defined.

Lemma ocr_pdf_lines_witness :
  fst (ocr_pdf DemoFitz.lib "in.pdf" None DemoFitz.start)
  = Ok (joined (map line ["a"; "b"; "c"])).
Proof.
  apply (ocr_pdf_lines DemoFitz.lib "in.pdf" None DemoFitz.start DemoFitz.doc
           ["a"; "b"; "c"]).
  - reflexivity.
  - repeat constructor.
Defined.

(** Page 0 is listed once and page 1 twice; page 2 is left as it is. *)
Lemma rotate_pages_touches_listed_pages_only_witness :
  exists saved,
    rotate_pages DemoFitz.lib "in.pdf" [0; 1; 1] 90 None DemoFitz.start
    = (Ok "rotated.pdf",
       World 0 [ok (Open (L:=DemoFitz.lib) "in.pdf");
                ok (SetRotation (L:=DemoFitz.lib) 0 90);
                ok (SetRotation (L:=DemoFitz.lib) 1 90);
                ok (SetRotation (L:=DemoFitz.lib) 1 90);
                ok (Save (L:=DemoFitz.lib) saved "rotated.pdf")])
    /\ length saved = 3%nat
    /\ (forall j, saved !! j
                  = Nat.iter (count_occ Z.eq_dec [0; 1; 1] (Z.of_nat j))
                      (fun pg => pg +:+ "@90") <$> DemoFitz.doc !! j)
    /\ (forall j, ~ In (Z.of_nat j) [0; 1; 1] -> saved !! j = DemoFitz.doc !! j)
    /\ (forall j, count_occ Z.eq_dec [0; 1; 1] (Z.of_nat j) = 1%nat ->
          saved !! j = (fun pg => pg +:+ "@90") <$> DemoFitz.doc !! j).
Proof.
  apply (rotate_pages_touches_listed_pages_only DemoFitz.lib "in.pdf" [0; 1; 1]
           90 None DemoFitz.start DemoFitz.doc (fun pg => pg +:+ "@90")).
  - reflexivity.
  - intros pg. reflexivity.
  - repeat constructor; cbn; lia.
Defined.

(** There is no page 5: page 1 is turned, page 2 is not, nothing is saved. *)
Lemma rotate_pages_stops_at_missing_page_witness :
  rotate_pages DemoFitz.lib "in.pdf" [1; 5; 2] 90 None DemoFitz.start
  = (Raise (Exception "IndexError" "page not in document"),
     World 0 [ok (Open (L:=DemoFitz.lib) "in.pdf");
              ok (SetRotation (L:=DemoFitz.lib) 1 90)]).
Proof.
  apply (rotate_pages_stops_at_missing_page DemoFitz.lib "in.pdf" [1] 5 [2]
           90 None DemoFitz.start DemoFitz.doc (fun pg => pg +:+ "@90")
           (Exception "IndexError" "page not in document")).
  - reflexivity.
  - intros pg. reflexivity.
  - repeat constructor; cbn; lia.
  - cbn. lia.
  - intros d. reflexivity.
Defined.

(** The keyword "b" is found twice on the page "b" and on no other page. *)
Lemma keyword_highlight_marks_matches_witness :
  exists calls,
    keyword_highlight_pdf DemoFitz.lib "in.pdf" "b" None DemoFitz.start
    = (Ok "highlighted.pdf",
       after DemoFitz.start
         (ok (Open (L:=DemoFitz.lib) "in.pdf") :: calls
          ++ [ok (SaveCompact (L:=DemoFitz.lib) ["a"; "b!!"; "c"]
                    "highlighted.pdf")]))
    /\ Forall (fun c => is_save c = false) calls
    /\ length ["a"; "b!!"; "c"] = 3%nat
    /\ (forall i pg, DemoFitz.doc !! i = Some pg ->
          (if String.eqb pg "b" then [1%nat; 2%nat] else []) = [] ->
          ["a"; "b!!"; "c"] !! i = Some pg).
Proof.
  apply (keyword_highlight_marks_matches DemoFitz.lib "in.pdf" "b" None
           DemoFitz.start DemoFitz.doc
           (fun pg => if String.eqb pg "b" then [1%nat; 2%nat] else [])
           (fun pg _ => pg +:+ "!")).
  - reflexivity.
  - intros pg _. cbn. destruct (String.eqb pg "b"); reflexivity.
  - intros pg r. reflexivity.
Defined.

(** The page "b" holds two images, the second without a named extension. *)
Lemma extract_images_saves_every_image_witness :
  extract_images DemoFitz.lib "in.pdf" (Some "images_out") DemoFitz.start
  = (Ok ["images_out/page_2_img_1.jpeg"; "images_out/page_2_img_2.png"],
     World 0 [ok (MakeDirs (L:=DemoFitz.lib) "images_out");
              ok (Open (L:=DemoFitz.lib) "in.pdf");
              ok (GetImages (L:=DemoFitz.lib) 0);
              ok (GetImages (L:=DemoFitz.lib) 1);
              ok (ExtractImage (L:=DemoFitz.lib) 7);
              ok (WriteBytes (L:=DemoFitz.lib)
                    "images_out/page_2_img_1.jpeg" "bytes");
              ok (ExtractImage (L:=DemoFitz.lib) 9);
              ok (WriteBytes (L:=DemoFitz.lib)
                    "images_out/page_2_img_2.png" "bytes");
              ok (GetImages (L:=DemoFitz.lib) 2)]).
Proof.
  apply (extract_images_saves_every_image DemoFitz.lib "in.pdf"
           (Some "images_out") DemoFitz.start DemoFitz.doc [[]; [7; 9]; []]
           (fun xref =>
              {| image := Some "bytes";
                 ext := if (xref =? 7)%Z then Some "jpeg" else None |})
           (fun _ => "bytes")).
  - reflexivity.
  - reflexivity.
  - repeat constructor.
  - intros xref _. split; reflexivity.
  - intros p b. reflexivity.
Defined.

Lemma extract_images_tool_without_images_witness :
  extract_images DemoFitz.plain "in.pdf" (Some "images_out") (World 0 [])
  = (Ok [],
     World 0 [ok (MakeDirs (L:=DemoFitz.plain) "images_out");
              ok (Open (L:=DemoFitz.plain) "in.pdf");
              ok (GetImages (L:=DemoFitz.plain) 0);
              ok (GetImages (L:=DemoFitz.plain) 1);
              ok (GetImages (L:=DemoFitz.plain) 2)])
  /\ extract_images_tool DemoFitz.plain (fun _ => ret tt) "in.pdf" (World 0 [])
     = (Raise (Exception "IndexError" "list index out of range"),
        World 0 [ok (MakeDirs (L:=DemoFitz.plain) "images_out");
                 ok (Open (L:=DemoFitz.plain) "in.pdf");
                 ok (GetImages (L:=DemoFitz.plain) 0);
                 ok (GetImages (L:=DemoFitz.plain) 1);
                 ok (GetImages (L:=DemoFitz.plain) 2)]).
Proof.
  apply (extract_images_tool_without_images DemoFitz.plain (fun _ => ret tt)
           "in.pdf" (World 0 []) DemoFitz.doc).
  - reflexivity.
  - reflexivity.
  - intros pg _. reflexivity.
Defined.

(** Two images are saved; the tool asks whether the first is a folder. *)
Lemma extract_images_tool_tests_first_image_witness :
  exists w',
    extract_images DemoFitz.lib "in.pdf" (Some "images_out") DemoFitz.start
    = (Ok ["images_out/page_2_img_1.jpeg"; "images_out/page_2_img_2.png"], w')
    /\ extract_images_tool DemoFitz.lib DemoFitz.no_show "in.pdf" DemoFitz.start
       = (Ok tt,
          after w' [ok (IsDir (L:=DemoFitz.lib) "images_out/page_2_img_1.jpeg")]).
Proof.
  eexists. split; [reflexivity |].
  apply (extract_images_tool_tests_first_image DemoFitz.lib DemoFitz.no_show
           "in.pdf" DemoFitz.start "images_out/page_2_img_1.jpeg"
           ["images_out/page_2_img_2.png"]).
  - reflexivity.
  - reflexivity.
Defined.

End FitzToolsExamples.

(** ** main.py: the tool "Reorder Pages" on the concrete library *)

Section ReorderToolExamples.
Import PyStr App Processing PdfSpec Tools.
Local Open Scope list_scope.

(** "2, 0" is typed for a document of three pages. *)
Lemma reorder_tool_typed_pages_witness :
  exists dst,
    Forall2 (fun i pg => nth_error DemoPdf.pages (Z.to_nat i) = Some pg) [2; 0] dst
    /\ (fitz_save DemoPdf.lib dst "outputs/reordered.pdf" = Ok tt ->
        reorder_tool DemoPdf.lib 4300 DemoApp.out_file DemoApp.offer "in.pdf"
          "2, 0" true DemoPdf.start
        = (Ok tt,
           World 0 [ok (FitzOpen "in.pdf"); ok FitzNew;
                    inserts DemoPdf.pages 2; inserts DemoPdf.pages 0;
                    ok (Save (L:=DemoPdf.lib) dst "outputs/reordered.pdf")])).
Proof.
  apply (reorder_tool_typed_pages DemoPdf.lib 4300 DemoApp.out_file
           DemoApp.offer "in.pdf" [("", 2, ""); (" ", 0, "")] DemoPdf.start
           DemoPdf.pages).
  - discriminate.
  - repeat constructor; cbn; lia.
  - reflexivity.
  - repeat constructor; cbn; lia.
Defined.

(** "x,-1" holds no number: the document saved has no page. *)
Lemma reorder_tool_without_numbers_witness :
  reorder_tool DemoPdf.lib 4300 DemoApp.out_file DemoApp.offer "in.pdf"
    "x,-1" true DemoPdf.start
  = (Ok tt,
     World 0 [ok (FitzOpen "in.pdf"); ok FitzNew;
              ok (Save (L:=DemoPdf.lib) [] "outputs/reordered.pdf")]).
Proof.
  apply (reorder_tool_without_numbers DemoPdf.lib 4300 DemoApp.out_file
           DemoApp.offer "in.pdf" "x,-1" DemoPdf.start DemoPdf.pages).
  - reflexivity.
  - repeat constructor.
  - reflexivity.
Defined.

End ReorderToolExamples.
